(** * RSSTranscript: the transcript pipeline of [main.py]

    A shallow embedding of [sanitize_filename], [create_aggregated_file] and
    [get_transcripts], and the properties of the specification checked
    against it.

    Conventions of the embedding.
    - A Python [str] is a [string]; its characters are the code points below
      256.  File contents (bytes) are [string]s as well, one character per
      byte.
    - The file system is a finite map from the path of a regular file to its
      content.  [os.path.exists p] is [is_Some (fs !! p)]; directories are
      not represented (the tool creates none below the output directory),
      and every write the program issues is accepted.
    - What the program gets from outside its own code is a parameter: the
      HTTP client ([requests.get] followed by [raise_for_status]),
      [feedparser.parse], BeautifulSoup's [get_text], the UTF-8 codec of the
      text-mode files and the two readings of the clock.
    - [strftime('%Y')] prints the year as the C library of the platform
      does, without padding (year 999 gives [999-01-01]).
    - Console output ([print]) is not modelled. *)

From Stdlib Require Import Ascii NArith Lia.
From stdpp Require Import gmap strings list fin_maps sorting.

(** ** Python's [str] methods used by the program *)

Module Py.

Definition chr (n : nat) : ascii := ascii_of_nat n.

Definition newline : string := String (chr 10) "".
Definition cr : string := String (chr 13) "".
Definition dquote : ascii := chr 34.

(** [s * n] for a one-character string *)
Fixpoint repeat_char (c : ascii) (n : nat) : string :=
  match n with
  | O => ""
  | S k => String c (repeat_char c k)
  end.

(** [str.isspace] on one character: code points 9-13, 28-32, 133, 160 *)
Definition isspace (c : ascii) : bool :=
  let n := nat_of_ascii c in
  ((9 <=? n) && (n <=? 13)) || ((28 <=? n) && (n <=? 32))
  || (n =? 133) || (n =? 160).

Fixpoint lstrip (s : string) : string :=
  match s with
  | "" => ""
  | String c s' => if isspace c then lstrip s' else s
  end.

Fixpoint rstrip (s : string) : string :=
  match s with
  | "" => ""
  | String c s' =>
      match rstrip s' with
      | "" => if isspace c then "" else String c ""
      | r => String c r
      end
  end.

(** [s.strip()] *)
Definition strip (s : string) : string := rstrip (lstrip s).

(** [s.startswith(p)] *)
Fixpoint startswith (p s : string) : bool :=
  match p, s with
  | "", _ => true
  | String a p', String b s' => if decide (a = b) then startswith p' s' else false
  | String _ _, "" => false
  end.

(** [s.endswith(p)]: [p] is [s] or ends the tail of [s] *)
Fixpoint endswith (p s : string) : bool :=
  bool_decide (s = p)
  || match s with
     | "" => false
     | String _ s' => endswith p s'
     end.

(** [p in s] *)
Fixpoint contains (p s : string) : bool :=
  startswith p s
  || match s with
     | "" => false
     | String _ s' => contains p s'
     end.

(** [s.replace(old, new)] for a non-empty [old]: left to right, matches do
    not overlap.  [skip] counts the characters of a match still to drop. *)
Fixpoint replace_from (old new : string) (skip : nat) (s : string) : string :=
  match s with
  | "" => ""
  | String c s' =>
      match skip with
      | S k => replace_from old new k s'
      | O =>
          if startswith old s
          then new +:+ replace_from old new (String.length old - 1) s'
          else String c (replace_from old new 0 s')
      end
  end.

Definition replace (old new s : string) : string := replace_from old new 0 s.

(** [str(n)] for a non-negative [int]; [fuel] bounds the number of digits *)
Definition digit (n : nat) : ascii := chr (48 + n `mod` 10).

Fixpoint str_of_nat_go (fuel n : nat) (acc : string) : string :=
  match fuel with
  | O => acc
  | S f =>
      let acc' := String (digit n) acc in
      if n <? 10 then acc' else str_of_nat_go f (n `div` 10) acc'
  end.

Definition str_of_nat (n : nat) : string := str_of_nat_go (S n) n "".

(** [%0wd]: decimal, padded with zeros on the left to [w] characters *)
Definition zfill (w : nat) (s : string) : string :=
  repeat_char "0" (w - String.length s) +:+ s.

(** [s[n:]] *)
Fixpoint drop (n : nat) (s : string) : string :=
  match n, s with
  | O, _ => s
  | S k, String _ s' => drop k s'
  | S _, "" => ""
  end.

(** truth value of an optional string: [None] and [''] are false *)
Definition truthy (o : option string) : bool :=
  match o with
  | None | Some "" => false
  | Some _ => true
  end.

End Py.

(** ** [os.path] and [os.listdir] over the file system *)

Module PosixPath.

(** [os.path.join(a, b)] of [posixpath] *)
Definition join (a b : string) : string :=
  if Py.startswith "/" b then b
  else if decide (a = "") then a +:+ b
  else if Py.endswith "/" a then a +:+ b
  else a +:+ "/" +:+ b.

(** What precedes the name of a file of directory [d] in its path *)
Definition dir_prefix (d : string) : string := join d "".

(** The name under which [os.listdir d] reports the file at path [k] *)
Definition entry_name (d k : string) : option string :=
  if Py.startswith (dir_prefix d) k then
    let name := Py.drop (String.length (dir_prefix d)) k in
    if decide (name = "") then None
    else if Py.contains "/" name then None
    else Some name
  else None.

(** [os.listdir d], in the order the file system reports it *)
Definition listdir (d : string) (fs : gmap string string) : list string :=
  omap (entry_name d) (map_to_list fs).*1.

(** [os.path.exists p] *)
Definition exists_ (p : string) (fs : gmap string string) : bool :=
  bool_decide (is_Some (fs !! p)).

End PosixPath.

(** ** [sanitize_filename] *)

(** The character class of the regular expression: backslash, slash, colon,
    star, question mark, double quote, angle brackets and bar *)
Definition illegal_chars : list ascii :=
  ["\"; "/"; ":"; "*"; "?"; Py.dquote; "<"; ">"; "|"]%char.

Definition is_illegal (c : ascii) : bool := bool_decide (c ∈ illegal_chars).

(** [re.sub] of that class by the empty string: every such character is
    deleted *)
Fixpoint remove_illegal (s : string) : string :=
  match s with
  | "" => ""
  | String c s' =>
      if is_illegal c then remove_illegal s' else String c (remove_illegal s')
  end.

Definition sanitize_filename (filename : string) : string :=
  Py.strip (remove_illegal filename).

(** ** The parsed feed, as [feedparser] hands it over *)

(** The calendar of [datetime]: the constructor raises [ValueError] unless
    the year is in 1..9999, the month in 1..12, the day in the month, and
    the time of day in range *)
Definition is_leap (y : nat) : bool :=
  (y `mod` 4 =? 0) && (negb (y `mod` 100 =? 0) || (y `mod` 400 =? 0)).

Definition days_in_month (y m : nat) : nat :=
  match m with
  | 2 => if is_leap y then 29 else 28
  | 4 | 6 | 9 | 11 => 30
  | _ => 31
  end.

Definition datetime_accepts (y m d hh mm ss : nat) : bool :=
  (1 <=? y) && (N.of_nat y <=? 9999)%N && (1 <=? m) && (m <=? 12)
  && (1 <=? d) && (d <=? days_in_month y m)
  && (hh <=? 23) && (mm <=? 59) && (ss <=? 59).

(** [published_parsed]: a [time.struct_time], of which line 118 hands the
    first six fields to [datetime.datetime].  The constructor raises on
    fields out of range, outside every [try]; a feed with such a date is
    not in the domain of the model, which [tm_accepted] records. *)
Record struct_time := {
  tm_year : nat;
  tm_mon : nat;
  tm_mday : nat;
  tm_hour : nat;
  tm_min : nat;
  tm_sec : nat;
  tm_accepted :
    datetime_accepts tm_year tm_mon tm_mday tm_hour tm_min tm_sec = true
}.

(** One record of the [podcast_transcript] field, read with [.get] *)
Record transcript_attrs := {
  tr_url : option string;
  tr_type : option string
}.

(** The [podcast_transcript] field: a list of records or a single one *)
Inductive transcript_field :=
| PTList (l : list transcript_attrs)
| PTDict (d : transcript_attrs).

Record link := {
  rel : option string;
  href : option string;
  ln_type : option string
}.

(** An entry; [None] is a key the entry does not have *)
Record entry := {
  title : option string;
  published_parsed : option struct_time;
  podcast_transcript : option transcript_field;
  links : option (list link)
}.

Record parsed_feed := {
  feed_title : option string;
  entries : list entry
}.

(** The result of [requests.get] followed by [raise_for_status]: the body of
    the response, or the message of the exception raised *)
Inductive http_result :=
| HttpOk (content : string)
| HttpError (e : string).

(** Which branch of the loop body an entry took *)
Inductive outcome :=
| Success (path : string)
| SkippedNoTranscript
| SkippedAlreadyExists
| DownloadFailed (e : string).

(** The state a run threads through: the file system, the three counters
    and the URLs requested so far, most recent first *)
Record state := {
  fs : gmap string string;
  success_count : nat;
  skip_count : nat;
  fail_count : nat;
  requests : list string
}.

Definition with_fs (f : gmap string string → gmap string string) (st : state)
  : state :=
  {| fs := f (fs st); success_count := success_count st;
     skip_count := skip_count st; fail_count := fail_count st;
     requests := requests st |}.

Definition requested (u : string) (st : state) : state :=
  {| fs := fs st; success_count := success_count st;
     skip_count := skip_count st; fail_count := fail_count st;
     requests := u :: requests st |}.

Definition count_success (st : state) : state :=
  {| fs := fs st; success_count := S (success_count st);
     skip_count := skip_count st; fail_count := fail_count st;
     requests := requests st |}.

Definition count_skip (st : state) : state :=
  {| fs := fs st; success_count := success_count st;
     skip_count := S (skip_count st); fail_count := fail_count st;
     requests := requests st |}.

Definition count_fail (st : state) : state :=
  {| fs := fs st; success_count := success_count st;
     skip_count := skip_count st; fail_count := S (fail_count st);
     requests := requests st |}.

(** How a call of [get_transcripts] ends *)
Inductive run_result :=
| Aborted (st : state)           (* early [return]: fetch error or no title *)
| Raised (st : state)            (* an exception nobody catches *)
| Finished (st : state) (log : list outcome).

(** ** The date prefix, the resolver and the extension *)

(** [datetime.datetime(...).strftime('%Y-%m-%d')]: the year as the C
    library prints it, without padding; month and day on two digits *)
Definition strftime_ymd (t : struct_time) : string :=
  Py.str_of_nat (tm_year t) +:+ "-"
  +:+ Py.zfill 2 (Py.str_of_nat (tm_mon t)) +:+ "-"
  +:+ Py.zfill 2 (Py.str_of_nat (tm_mday t)).

Definition date_prefix (e : entry) : string :=
  match published_parsed e with
  | Some t => strftime_ymd t
  | None => "0000-00-00"
  end.

Definition episode_title (i : nat) (e : entry) : string :=
  default ("Episode_" +:+ Py.str_of_nat i) (title e).

(** Strategy 1: the [podcast_transcript] key *)
Definition from_extension (e : entry) : option string * option string :=
  match podcast_transcript e with
  | Some (PTList (d :: _)) => (tr_url d, tr_type d)
  | Some (PTDict d) => (tr_url d, tr_type d)
  | _ => (None, None)
  end.

Definition is_transcript_link (l : link) : bool :=
  bool_decide (rel l = Some "transcript").

(** Strategy 2: the first link whose [rel] is [transcript], tried when
    strategy 1 left no usable URL *)
Definition resolve (e : entry) : option string * option string :=
  let '(transcript_url, transcript_type) := from_extension e in
  if negb (Py.truthy transcript_url) then
    match links e with
    | Some ls =>
        match List.find is_transcript_link ls with
        | Some l => (href l, ln_type l)
        | None => (transcript_url, transcript_type)
        end
    | None => (transcript_url, transcript_type)
    end
  else (transcript_url, transcript_type).

(** File extension guess *)
Definition extension (transcript_type : option string) : string :=
  if decide (transcript_type = Some "application/json") then ".json"
  else if decide (transcript_type = Some "text/vtt") then ".vtt"
  else if decide (transcript_type = Some "application/srt") then ".srt"
  else if decide (transcript_type = Some "text/html") then ".html"
  else ".txt".

Definition filename_of (i : nat) (e : entry) (ext : string) : string :=
  date_prefix e +:+ "_" +:+ sanitize_filename (episode_title i e) +:+ ext.

(** The path whose existence decides whether the entry is skipped *)
Definition check_path_of (file_path ext : string) : string :=
  if decide (ext = ".html") then Py.replace ".html" ".txt" file_path
  else file_path.

(** ** [csv.writer.writerow] with the default dialect *)

Definition csv_special (c : ascii) : bool :=
  bool_decide (c ∈ [","%char; Py.dquote; Py.chr 13; Py.chr 10]).

Fixpoint csv_any_special (s : string) : bool :=
  match s with
  | "" => false
  | String c s' => csv_special c || csv_any_special s'
  end.

Fixpoint csv_double_quotes (s : string) : string :=
  match s with
  | "" => ""
  | String c s' =>
      if decide (c = Py.dquote)
      then String c (String c (csv_double_quotes s'))
      else String c (csv_double_quotes s')
  end.

Definition csv_field (s : string) : string :=
  if csv_any_special s
  then String Py.dquote (csv_double_quotes s) +:+ String Py.dquote ""
  else s.

Definition csv_row (fields : list string) : string :=
  String.concat "," (csv_field <$> fields) +:+ Py.cr +:+ Py.newline.

Definition log_name : string := "download_log.txt".
Definition csv_name : string := "skipped_episodes.csv".

(** ** The pipeline *)

Section Pipeline.

(** [requests.get(url, timeout=10, verify=False)] and [raise_for_status] *)
Variable http_get : string → http_result.
(** [feedparser.parse] *)
Variable feedparser_parse : string → parsed_feed.
(** [BeautifulSoup(html, 'html.parser').get_text(separator='\n\n')] *)
Variable soup_get_text : string → string.
(** Writing text to a file opened with [encoding='utf-8'] *)
Variable utf8_encode : string → string.
(** Reading such a file as text; [None] when decoding raises *)
Variable utf8_decode : string → option string.

Definition html_to_text (html_content : string) : string :=
  Py.strip (soup_get_text html_content).

(** [f.write(text)] on a file opened for appending (created when absent) *)
Definition append_text (p text : string) (m : gmap string string)
  : gmap string string :=
  <[p := default "" (m !! p) +:+ utf8_encode text]> m.

(** [sorted(...)] of the eligible names of the output directory *)
Definition eligible (f : string) : bool :=
  Py.endswith ".txt" f
  && negb (Py.contains "All_Transcripts" f)
  && negb (bool_decide (f = log_name)).

Definition txt_files (output_dir : string) (m : gmap string string)
  : list string :=
  merge_sort String.le (List.filter eligible (PosixPath.listdir output_dir m)).

Definition rule (c : ascii) : string := Py.repeat_char c 80.

(** What the loop over [txt_files] writes for one name: nothing when the
    file cannot be read *)
Definition episode_section (output_dir : string) (m : gmap string string)
    (fname : string) : string :=
  match m !! PosixPath.join output_dir fname ≫= utf8_decode with
  | Some content =>
      utf8_encode ("EPISODE: " +:+ fname +:+ Py.newline)
      +:+ utf8_encode (rule "-" +:+ Py.newline)
      +:+ utf8_encode content
      +:+ utf8_encode (Py.newline +:+ Py.newline +:+ rule "=" +:+ Py.newline
                       +:+ Py.newline)
  | None => ""
  end.

Definition aggregate_header (podcast_title now : string) : string :=
  utf8_encode ("AGGREGATED TRANSCRIPTS FOR: " +:+ podcast_title +:+ Py.newline)
  +:+ utf8_encode ("Generated: " +:+ now +:+ Py.newline)
  +:+ utf8_encode (rule "=" +:+ Py.newline +:+ Py.newline).

Fixpoint concat_sections (l : list string) : string :=
  match l with
  | [] => ""
  | s :: l' => s +:+ concat_sections l'
  end.

Definition create_aggregated_file (output_dir podcast_title now : string)
    (m : gmap string string) : gmap string string :=
  let files := txt_files output_dir m in
  match files with
  | [] => m
  | _ :: _ =>
      let agg_filename :=
        sanitize_filename podcast_title +:+ "_All_Transcripts.txt" in
      let agg_path := PosixPath.join output_dir agg_filename in
      (* opening for writing truncates the file before the others are read *)
      let opened := <[agg_path := ""]> m in
      <[agg_path :=
          aggregate_header podcast_title now
          +:+ concat_sections (episode_section output_dir opened <$> files)]>
        opened
  end.

(** The body of the loop over the entries.  The [except] of line 214 is
    entered here from a failed request only: writes and [html_to_text] are
    taken to succeed, as the header says. *)
Definition process_entry (output_dir : string) (i : nat) (e : entry)
    (st : state) : state * outcome :=
  let episode_title := episode_title i e in
  let date_prefix := date_prefix e in
  let log_path := PosixPath.join output_dir log_name in
  let csv_path := PosixPath.join output_dir csv_name in
  let '(transcript_url, transcript_type) := resolve e in
  if negb (Py.truthy transcript_url) then
    let st := with_fs (append_text log_path
                ("SKIP [No Tag]: " +:+ episode_title +:+ Py.newline)) st in
    let st := with_fs (append_text csv_path
                (csv_row [episode_title; "No Tag"; date_prefix;
                          "No podcast:transcript tag found"])) st in
    (count_skip st, SkippedNoTranscript)
  else
    let transcript_url := default "" transcript_url in
    let ext := extension transcript_type in
    let filename := filename_of i e ext in
    let file_path := PosixPath.join output_dir filename in
    let check_path := check_path_of file_path ext in
    if PosixPath.exists_ check_path (fs st) then
      let st := with_fs (append_text log_path
                  ("SKIP [Exists]: " +:+ episode_title +:+ Py.newline)) st in
      (count_skip st, SkippedAlreadyExists)
    else
      let st := requested transcript_url st in
      match http_get transcript_url with
      | HttpOk content =>
          let st := with_fs (insert file_path content) st in
          if decide (ext = ".html") then
            let text_content := html_to_text content in
            let txt_filename := Py.replace ".html" ".txt" filename in
            let txt_path := PosixPath.join output_dir txt_filename in
            let st := with_fs (insert txt_path (utf8_encode text_content)) st in
            let st := with_fs (append_text log_path
                        ("SUCCESS: " +:+ episode_title +:+ " -> "
                         +:+ txt_filename +:+ " (from HTML)" +:+ Py.newline))
                        st in
            (count_success st, Success txt_path)
          else
            let st := with_fs (insert file_path content) st in
            let st := with_fs (append_text log_path
                        ("SUCCESS: " +:+ episode_title +:+ " -> "
                         +:+ filename +:+ Py.newline)) st in
            (count_success st, Success file_path)
      | HttpError err =>
          let st := with_fs (append_text log_path
                      ("ERROR: " +:+ episode_title +:+ " - " +:+ err
                       +:+ Py.newline)) st in
          let st := with_fs (append_text csv_path
                      (csv_row [episode_title; "Download Error"; date_prefix;
                                err])) st in
          (count_fail st, DownloadFailed err)
      end.

(** [for i, entry in enumerate(feed.entries)], from index [i] on *)
Fixpoint process_entries (output_dir : string) (i : nat) (es : list entry)
    (st : state) : state * list outcome :=
  match es with
  | [] => (st, [])
  | e :: es' =>
      let '(st1, o) := process_entry output_dir i e st in
      let '(st2, os) := process_entries output_dir (S i) es' st1 in
      (st2, o :: os)
  end.

(** [get_transcripts(rss_url, output_base)] run on the file system [disk];
    [now_start] and [now_agg] are what [datetime.datetime.now()] prints at
    the start banner and in the aggregate header *)
Definition get_transcripts (rss_url output_base now_start now_agg : string)
    (disk : gmap string string) : run_result :=
  let st := {| fs := disk; success_count := 0; skip_count := 0;
               fail_count := 0; requests := [rss_url] |} in
  match http_get rss_url with
  | HttpError _ => Aborted st
  | HttpOk feed_content =>
      let feed := feedparser_parse feed_content in
      match feed_title feed with
      | None => Aborted st
      | Some t =>
          let podcast_title := sanitize_filename t in
          let output_dir := PosixPath.join output_base podcast_title in
          (* os.makedirs('') raises *)
          if decide (output_dir = "") then Raised st
          else
            let log_path := PosixPath.join output_dir log_name in
            let csv_path := PosixPath.join output_dir csv_name in
            let st :=
              if PosixPath.exists_ csv_path (fs st) then st
              else with_fs (insert csv_path
                     (utf8_encode (csv_row ["Episode Title"; "Reason"; "Date";
                                            "Details"]))) st in
            let st := with_fs (append_text log_path
                        ("--- Run started at " +:+ now_start +:+ " ---"
                         +:+ Py.newline)) st in
            let '(st, log) := process_entries output_dir 0 (entries feed) st in
            Finished
              (with_fs (create_aggregated_file output_dir podcast_title now_agg)
                 st)
              log
      end
  end.

End Pipeline.

(** ** Predicates the statements below are written with *)

Fixpoint all_chars (P : ascii → bool) (s : string) : bool :=
  match s with
  | "" => true
  | String c s' => P c && all_chars P s'
  end.

Definition first_char (s : string) : option ascii :=
  match s with
  | "" => None
  | String c _ => Some c
  end.


Definition is_digit (c : ascii) : bool :=
  (48 <=? nat_of_ascii c) && (nat_of_ascii c <=? 57).

Definition digit_first (s : string) : Prop :=
  ∃ c r, s = String c r ∧ is_digit c = true.

(** Every path that exists in [m1] exists in [m2] *)
Definition grows (m1 m2 : gmap string string) : Prop :=
  ∀ p, is_Some (m1 !! p) → is_Some (m2 !! p).

(** The path whose existence the loop body checks for an entry *)
Definition entry_check_path (output_dir : string) (i : nat) (e : entry)
  : string :=
  let ext := extension (resolve e).2 in
  check_path_of (PosixPath.join output_dir (filename_of i e ext)) ext.

(** The state in which the loop over the entries starts: the CSV has its
    header and the log its banner *)
Definition loop_start (utf8_encode : string → string)
    (output_dir rss_url now_start : string) (disk : gmap string string)
  : state :=
  let st := {| fs := disk; success_count := 0; skip_count := 0;
               fail_count := 0; requests := [rss_url] |} in
  let st :=
    if PosixPath.exists_ (PosixPath.join output_dir csv_name) (fs st) then st
    else with_fs (insert (PosixPath.join output_dir csv_name)
           (utf8_encode (csv_row ["Episode Title"; "Reason"; "Date";
                                  "Details"]))) st in
  with_fs (append_text utf8_encode (PosixPath.join output_dir log_name)
             ("--- Run started at " +:+ now_start +:+ " ---" +:+ Py.newline))
    st.

Definition is_success (o : outcome) : bool :=
  match o with Success _ => true | _ => false end.

Definition is_skip (o : outcome) : bool :=
  match o with
  | SkippedNoTranscript | SkippedAlreadyExists => true
  | _ => false
  end.

Definition is_fail (o : outcome) : bool :=
  match o with DownloadFailed _ => true | _ => false end.

(** The number of outcomes of a kind in the run's list *)
Definition count_outcomes (f : outcome → bool) (log : list outcome) : nat :=
  length (List.filter f log).

(** The content of the file at [p], if any, only got longer *)
Definition appended_at (p : string) (m1 m2 : gmap string string) : Prop :=
  ∀ old, m1 !! p = Some old → ∃ suffix, m2 !! p = Some (old +:+ suffix).

(** A character [sanitize_filename] keeps *)
Definition legal (c : ascii) : bool := negb (is_illegal c).




(** ** Feeds and entries the examples run on *)

Definition entry_vtt_and_link : entry :=
  {| title := Some "Pilot"; published_parsed := None;
     podcast_transcript :=
       Some (PTDict {| tr_url := Some "https://cdn.example/pilot.vtt";
                       tr_type := Some "text/vtt" |});
     links :=
       Some [ {| rel := Some "transcript";
                 href := Some "https://example.org/pilot.srt";
                 ln_type := Some "application/srt" |} ] |}.

(** An extension field without a [url] attribute, next to a transcript
    link *)
Definition entry_no_url_and_link : entry :=
  {| title := Some "Pilot"; published_parsed := None;
     podcast_transcript :=
       Some (PTDict {| tr_url := None; tr_type := Some "text/vtt" |});
     links :=
       Some [ {| rel := Some "transcript";
                 href := Some "https://example.org/pilot.srt";
                 ln_type := Some "application/srt" |} ] |}.

(** The network of the examples: a feed, an HTML and a WebVTT transcript;
    every other URL answers 404 *)
Definition example_http (u : string) : http_result :=
  if decide (u = "https://example.org/feed.xml") then HttpOk "<rss/>"
  else if decide (u = "https://example.org/ep1.html")
  then HttpOk "<p>Hello</p><p>World</p>"
  else if decide (u = "https://example.org/ep2.vtt") then HttpOk "WEBVTT"
  else HttpError "404 Client Error".

(** Stand-ins for BeautifulSoup and the codec on the examples, whose
    contents are ASCII *)
Definition example_get_text (html : string) : string := html.
Definition example_encode (s : string) : string := s.
Definition example_decode (s : string) : option string := Some s.

(** The entry of the specification: an HTML transcript in the extension
    field *)
Definition entry_html : entry :=
  {| title := Some "Ep 1: A/B?";
     published_parsed := Some {| tm_year := 2023; tm_mon := 1; tm_mday := 5; tm_hour := 8;
             tm_min := 30; tm_sec := 0; tm_accepted := eq_refl |};
     podcast_transcript :=
       Some (PTDict {| tr_url := Some "https://example.org/ep1.html";
                       tr_type := Some "text/html" |});
     links := None |}.

(** A WebVTT transcript behind a link, no date *)
Definition entry_vtt : entry :=
  {| title := Some "Two"; published_parsed := None;
     podcast_transcript := None;
     links :=
       Some [ {| rel := Some "alternate";
                 href := Some "https://example.org/two"; ln_type := None |};
              {| rel := Some "transcript";
                 href := Some "https://example.org/ep2.vtt";
                 ln_type := Some "text/vtt" |} ] |}.

(** No title, no transcript *)
Definition entry_bare : entry :=
  {| title := None; published_parsed := None; podcast_transcript := None;
     links :=
       Some [ {| rel := Some "alternate";
                 href := Some "https://example.org/three"; ln_type := None |} ] |}.

(** A transcript whose URL answers 404 *)
Definition entry_gone : entry :=
  {| title := Some "Four"; published_parsed := None;
     podcast_transcript :=
       Some (PTList [ {| tr_url := Some "https://example.org/ep4.txt";
                         tr_type := None |} ]);
     links := None |}.

Definition example_feed (feed_title : string) (_ : string) : parsed_feed :=
  {| feed_title := Some feed_title;
     entries := [entry_html; entry_vtt; entry_bare; entry_gone] |}.

(** A run of the tool on the example feed titled [t] *)
Definition example_run (t now_start now_agg : string)
    (disk : gmap string string) : run_result :=
  get_transcripts example_http (example_feed t) example_get_text
    example_encode example_decode "https://example.org/feed.xml" "downloads"
    now_start now_agg disk.

Definition final_state (r : run_result) : state :=
  match r with
  | Aborted st | Raised st | Finished st _ => st
  end.

Definition branches (r : run_result) : list outcome :=
  match r with
  | Finished _ log => log
  | _ => []
  end.

(** The file system two runs leave behind, the second started on what the
    first left *)
Definition first_run (t : string) : run_result :=
  example_run t "2024-05-01 10:00:00" "2024-05-01 10:00:09" ∅.

Definition second_run (t : string) : run_result :=
  example_run t "2024-05-02 10:00:00" "2024-05-02 10:00:09"
    (fs (final_state (first_run t))).

(** An output directory with three dated transcripts, an episode whose title
    contains [All_Transcripts], the log, the CSV and an earlier aggregate *)
Definition example_dir : gmap string string :=
  list_to_map
    [ ("downloads/Pod/2023-01-01_One.txt", "first");
      ("downloads/Pod/2023-02-01_Three.txt", "third");
      ("downloads/Pod/2023-01-15_Two.txt", "second");
      ("downloads/Pod/2023-03-01_All_Transcripts explained.txt", "fourth");
      ("downloads/Pod/2023-01-15_Two.html", "<p>second</p>");
      ("downloads/Pod/download_log.txt", "--- Run started ---");
      ("downloads/Pod/skipped_episodes.csv", "Episode Title,Reason,Date,Details");
      ("downloads/Pod/Pod_All_Transcripts.txt", "old aggregate") ].

(** An entry whose transcript the tool stores under the fourth name *)
Definition entry_explained : entry :=
  {| title := Some "All_Transcripts explained";
     published_parsed := Some {| tm_year := 2023; tm_mon := 3; tm_mday := 1; tm_hour := 0;
             tm_min := 0; tm_sec := 0; tm_accepted := eq_refl |};
     podcast_transcript :=
       Some (PTDict {| tr_url := Some "https://example.org/ep2.vtt";
                       tr_type := Some "text/plain" |});
     links := None |}.


Definition empty_state (m : gmap string string) : state :=
  {| fs := m; success_count := 0; skip_count := 0; fail_count := 0;
     requests := [] |}.

(** * Properties *)

(** ** Strings *)

Module PyFacts.

Lemma app_cons c (s t : string) : String c s +:+ t = String c (s +:+ t).
Proof. reflexivity. Qed.

Lemma app_nil_l (s : string) : "" +:+ s = s.
Proof. reflexivity. Qed.

Lemma app_nil_r (s : string) : s +:+ "" = s.
Proof. induction s as [|c s IH]; [done|]. by rewrite app_cons, IH. Qed.

Lemma app_assoc (s t u : string) : (s +:+ t) +:+ u = s +:+ t +:+ u.
Proof. induction s as [|c s IH]; [done|]. by rewrite !app_cons, IH. Qed.

Lemma length_app (s t : string) :
  String.length (s +:+ t) = String.length s + String.length t.
Proof. induction s as [|c s IH]; [done|]. rewrite app_cons. simpl. by rewrite IH. Qed.

Lemma startswith_app (p s : string) : Py.startswith p (p +:+ s) = true.
Proof.
  induction p as [|c p IH]; [by destruct s|].
  rewrite app_cons. simpl. by rewrite decide_True.
Qed.

Lemma startswith_inv (p s : string) :
  Py.startswith p s = true → ∃ r, s = p +:+ r.
Proof.
  revert s. induction p as [|c p IH]; intros s H.
  - by exists s.
  - destruct s as [|b s]; [done|]. simpl in H.
    destruct (decide (c = b)) as [->|]; [|done].
    destruct (IH _ H) as [r ->]. by exists r.
Qed.

Lemma startswith_iff (p s : string) :
  Py.startswith p s = true ↔ ∃ r, s = p +:+ r.
Proof.
  split; [apply startswith_inv|]. intros [r ->]. apply startswith_app.
Qed.

Lemma drop_app (p s : string) : Py.drop (String.length p) (p +:+ s) = s.
Proof. induction p as [|c p IH]; [by destruct s|]. by rewrite app_cons. Qed.

Lemma endswith_app (l p : string) : Py.endswith p (l +:+ p) = true.
Proof.
  induction l as [|c l IH].
  - rewrite app_nil_l.
    destruct p; simpl;
      first [done | apply orb_true_iff; left; by apply bool_decide_eq_true].
  - rewrite app_cons. simpl. rewrite IH. apply orb_true_r.
Qed.

Lemma endswith_inv (p s : string) :
  Py.endswith p s = true → ∃ l, s = l +:+ p.
Proof.
  induction s as [|c s IH]; simpl; intros H.
  - apply orb_true_iff in H as [H|H]; [|done].
    apply bool_decide_eq_true in H as <-. by exists "".
  - apply orb_true_iff in H as [H|H].
    + apply bool_decide_eq_true in H as <-. by exists "".
    + destruct (IH H) as [l ->]. by exists (String c l).
Qed.

Lemma contains_app (l p r : string) : Py.contains p (l +:+ p +:+ r) = true.
Proof.
  induction l as [|c l IH].
  - rewrite app_nil_l.
    destruct (p +:+ r) eqn:E; simpl; rewrite <-E, startswith_app; done.
  - rewrite app_cons. simpl. rewrite IH. apply orb_true_r.
Qed.

Lemma contains_inv (p s : string) :
  Py.contains p s = true → ∃ l r, s = l +:+ p +:+ r.
Proof.
  induction s as [|c s IH]; simpl; intros H.
  - apply orb_true_iff in H as [H|H]; [|done].
    apply startswith_inv in H as [r ->]. by exists "", r.
  - apply orb_true_iff in H as [H|H].
    + apply startswith_inv in H as [r ->]. by exists "", r.
    + destruct (IH H) as (l & r & ->). by exists (String c l), r.
Qed.

Lemma contains_false_app_r (p l r : string) :
  Py.contains p (l +:+ r) = false → Py.contains p r = false.
Proof.
  intros H. destruct (Py.contains p r) eqn:E; [|done].
  apply contains_inv in E as (a & b & ->).
  by rewrite <-app_assoc, contains_app in H.
Qed.

End PyFacts.

(** ** Paths *)

Module PathFacts.
Import PyFacts.

Lemma join_relative (d f : string) :
  Py.startswith "/" f = false →
  PosixPath.join d f = PosixPath.dir_prefix d +:+ f.
Proof.
  intros Hf. unfold PosixPath.dir_prefix, PosixPath.join. rewrite Hf. simpl.
  destruct (decide (d = "")) as [->|_]; [done|].
  destruct (Py.endswith "/" d).
  - by rewrite app_nil_r.
  - by rewrite app_nil_r, app_assoc.
Qed.

(** Two names that are not absolute paths name the same file of a
    directory only when they are equal. *)
Lemma join_inj (d f g : string) :
  Py.startswith "/" f = false → Py.startswith "/" g = false →
  PosixPath.join d f = PosixPath.join d g → f = g.
Proof.
  intros Hf Hg. rewrite !join_relative by done. apply (inj _).
Qed.

Lemma contains_slash_startswith (f : string) :
  Py.contains "/" f = false → Py.startswith "/" f = false.
Proof.
  destruct f as [|c f]; [done|]. simpl.
  destruct (decide ("/"%char = c)); [|done]. by destruct f.
Qed.

Lemma entry_name_Some (d k f : string) :
  PosixPath.entry_name d k = Some f ↔
  k = PosixPath.dir_prefix d +:+ f ∧ f ≠ "" ∧ Py.contains "/" f = false.
Proof.
  unfold PosixPath.entry_name. split.
  - destruct (Py.startswith _ k) eqn:Hp; [|done].
    apply startswith_inv in Hp as [r ->]. rewrite drop_app.
    destruct (decide (r = "")); [done|].
    destruct (Py.contains "/" r) eqn:Hc; [done|]. by intros [= ->].
  - intros (-> & Hne & Hc). rewrite startswith_app, drop_app.
    rewrite decide_False by done. by rewrite Hc.
Qed.

(** [os.listdir]: the non-empty names without a slash whose path is a
    file *)
Lemma elem_of_listdir (d f : string) (m : gmap string string) :
  f ∈ PosixPath.listdir d m ↔
  is_Some (m !! (PosixPath.dir_prefix d +:+ f))
  ∧ f ≠ "" ∧ Py.contains "/" f = false.
Proof.
  unfold PosixPath.listdir. rewrite list_elem_of_omap. split.
  - intros (k & Hk & Hn). apply entry_name_Some in Hn as (-> & ? & ?).
    split; [|done]. apply list_elem_of_fmap in Hk as ([k' v] & -> & Hkv).
    apply elem_of_map_to_list in Hkv. by exists v.
  - intros ([v Hv] & ? & ?). exists (PosixPath.dir_prefix d +:+ f). split.
    + apply list_elem_of_fmap. exists (PosixPath.dir_prefix d +:+ f, v).
      split; [done|]. by apply elem_of_map_to_list.
    + by apply entry_name_Some.
Qed.

Lemma listdir_join (d f : string) (m : gmap string string) :
  f ∈ PosixPath.listdir d m → is_Some (m !! PosixPath.join d f).
Proof.
  intros (? & ? & Hc)%elem_of_listdir.
  by rewrite join_relative by by apply contains_slash_startswith.
Qed.

Lemma NoDup_omap_inj {A B} (f : A → option B) (l : list A) :
  (∀ x y z, f x = Some z → f y = Some z → x = y) →
  NoDup l → NoDup (omap f l).
Proof.
  intros Hinj. induction 1 as [|a l Ha Hl IH]; simpl; [constructor|].
  destruct (f a) as [b|] eqn:Hfa; [|done]. constructor; [|done].
  rewrite list_elem_of_omap. intros (x & Hx & Hfx).
  by rewrite (Hinj _ _ _ Hfa Hfx) in Ha.
Qed.

Lemma NoDup_listdir (d : string) (m : gmap string string) :
  NoDup (PosixPath.listdir d m).
Proof.
  unfold PosixPath.listdir. apply NoDup_omap_inj.
  - intros k1 k2 f H1 H2. apply entry_name_Some in H1 as (-> & _).
    by apply entry_name_Some in H2 as (-> & _).
  - apply NoDup_fst_map_to_list.
Qed.

End PathFacts.

(** ** Sanitized names and the date prefix *)

Module NameFacts.
Import PyFacts PathFacts.

Lemma all_chars_app P (s t : string) :
  all_chars P (s +:+ t) = all_chars P s && all_chars P t.
Proof.
  induction s as [|c s IH]; [done|]. rewrite app_cons. simpl.
  by rewrite IH, andb_assoc.
Qed.

(** *** [strip] *)

Lemma lstrip_split (s : string) :
  ∃ l, s = l +:+ Py.lstrip s ∧ all_chars Py.isspace l = true.
Proof.
  induction s as [|c s (l & Hl & Hs)]; [by exists ""|]. simpl.
  destruct (Py.isspace c) eqn:Hc.
  - exists (String c l). rewrite app_cons, <-Hl. simpl. by rewrite Hc.
  - by exists "".
Qed.

Lemma rstrip_split (s : string) :
  ∃ r, s = Py.rstrip s +:+ r ∧ all_chars Py.isspace r = true.
Proof.
  induction s as [|c s (r & Hr & Hs)]; [by exists ""|]. simpl.
  destruct (Py.rstrip s) as [|b t] eqn:Ht.
  - rewrite app_nil_l in Hr. subst r.
    destruct (Py.isspace c) eqn:Hc.
    + exists (String c s). simpl. by rewrite Hc.
    + by exists s.
  - exists r. by rewrite app_cons, <-Hr.
Qed.

Lemma strip_split (s : string) :
  ∃ l r, s = l +:+ Py.strip s +:+ r
         ∧ all_chars Py.isspace l = true ∧ all_chars Py.isspace r = true.
Proof.
  destruct (lstrip_split s) as (l & Hl & ?).
  destruct (rstrip_split (Py.lstrip s)) as (r & Hr & ?).
  exists l, r. unfold Py.strip. by rewrite <-Hr.
Qed.

Lemma lstrip_first (s : string) c :
  first_char (Py.lstrip s) = Some c → Py.isspace c = false.
Proof.
  induction s as [|b s IH]; [done|]. simpl.
  destruct (Py.isspace b) eqn:Hb; [done|]. by intros [= <-].
Qed.

Lemma rstrip_first (s : string) c :
  first_char (Py.rstrip s) = Some c → first_char s = Some c.
Proof.
  destruct s as [|b s]; [done|]. simpl.
  destruct (Py.rstrip s); [|done]. by destruct (Py.isspace b).
Qed.


Lemma strip_first (s : string) c :
  first_char (Py.strip s) = Some c → Py.isspace c = false.
Proof. intros H%rstrip_first. by apply lstrip_first in H. Qed.


(** *** [remove_illegal] and [sanitize_filename] *)

Lemma remove_illegal_filter (s : string) :
  String.list_ascii_of_string (remove_illegal s)
  = List.filter (λ c, negb (is_illegal c)) (String.list_ascii_of_string s).
Proof.
  induction s as [|c s IH]; [done|]. simpl.
  destruct (is_illegal c); simpl; by rewrite IH.
Qed.

Lemma remove_illegal_legal (s : string) :
  all_chars (λ c, negb (is_illegal c)) (remove_illegal s) = true.
Proof.
  induction s as [|c s IH]; [done|]. simpl.
  destruct (is_illegal c) eqn:Hc; [done|]. simpl. by rewrite Hc.
Qed.

Lemma sanitize_legal (s : string) :
  all_chars (λ c, negb (is_illegal c)) (sanitize_filename s) = true.
Proof.
  pose proof (remove_illegal_legal s) as H. unfold sanitize_filename.
  destruct (strip_split (remove_illegal s)) as (l & r & Hs & _).
  rewrite Hs, !all_chars_app in H.
  apply andb_true_iff in H as [_ H]. by apply andb_true_iff in H as [? _].
Qed.

Lemma legal_startswith_slash (s t : string) :
  all_chars (λ c, negb (is_illegal c)) s = true →
  Py.startswith "/" t = false →
  Py.startswith "/" (s +:+ t) = false.
Proof.
  destruct s as [|c s]; [done|]. rewrite app_cons. simpl.
  intros [Hc _]%andb_true_iff _.
  destruct (decide ("/"%char = c)) as [<-|]; done.
Qed.

(** *** Decimal numbers start with a digit *)

Lemma digit_is_digit (n : nat) : is_digit (Py.digit n) = true.
Proof.
  unfold is_digit, Py.digit, Py.chr.
  pose proof (Nat.mod_upper_bound n 10 ltac:(lia)).
  rewrite nat_ascii_embedding by lia.
  apply andb_true_iff; split; apply Nat.leb_le; lia.
Qed.

Lemma str_of_nat_go_digit (fuel n : nat) (acc : string) :
  fuel ≠ 0 → digit_first (Py.str_of_nat_go fuel n acc).
Proof.
  revert n acc. induction fuel as [|f IH]; intros n acc Hf; [done|]. simpl.
  destruct (n <? 10).
  - eexists _, _. split; [done|apply digit_is_digit].
  - destruct f as [|f]; [|by apply IH].
    eexists _, _. split; [done|apply digit_is_digit].
Qed.

Lemma str_of_nat_digit (n : nat) : digit_first (Py.str_of_nat n).
Proof. by apply str_of_nat_go_digit. Qed.

Lemma digit_first_app (s t : string) : digit_first s → digit_first (s +:+ t).
Proof. intros (c & r & -> & ?). by exists c, (r +:+ t). Qed.

Lemma zfill_digit (w : nat) (s : string) :
  digit_first s → digit_first (Py.zfill w s).
Proof.
  intros Hs. unfold Py.zfill. destruct (w - String.length s); [done|].
  by eexists _, _.
Qed.

Lemma date_prefix_digit (e : entry) : digit_first (date_prefix e).
Proof.
  unfold date_prefix. destruct (published_parsed e) as [t|].
  - unfold strftime_ymd. apply digit_first_app, str_of_nat_digit.
  - by eexists _, _.
Qed.

Lemma filename_digit (i : nat) (e : entry) (ext : string) :
  digit_first (filename_of i e ext).
Proof. apply digit_first_app, date_prefix_digit. Qed.

Lemma digit_first_replace (s : string) :
  digit_first s → digit_first (Py.replace ".html" ".txt" s).
Proof.
  intros (c & r & -> & Hc). unfold Py.replace. simpl.
  destruct (decide ("."%char = c)) as [<-|]; [done|]. by eexists _, _.
Qed.

Lemma digit_first_relative (s : string) :
  digit_first s → Py.startswith "/" s = false.
Proof.
  intros (c & r & -> & Hc). simpl.
  destruct (decide ("/"%char = c)) as [<-|]; done.
Qed.

Lemma digit_first_not_log (s : string) :
  digit_first s → s ≠ log_name ∧ s ≠ csv_name.
Proof. intros (c & r & -> & Hc). split; intros [= -> _]; done. Qed.

(** An artifact of an episode is neither the run log nor the CSV. *)
Lemma artifact_not_log (d s : string) :
  digit_first s →
  PosixPath.join d s ≠ PosixPath.join d log_name
  ∧ PosixPath.join d s ≠ PosixPath.join d csv_name.
Proof.
  intros Hs. destruct (digit_first_not_log s Hs) as [Hl Hc].
  split; intros Heq%join_inj; auto using digit_first_relative.
Qed.

Lemma log_not_csv (d : string) :
  PosixPath.join d log_name ≠ PosixPath.join d csv_name.
Proof. by intros H%join_inj. Qed.

End NameFacts.

(** ** The resolver, the extension table and the file name *)

(** C6: the extension follows the declared type by exact, case-sensitive
    comparison: the four listed types get their own extension, and every
    other declared type, an absent one included, gets [.txt]. *)
Theorem extension_table (t : option string) :
  extension (Some "application/json") = ".json"
  ∧ extension (Some "text/vtt") = ".vtt"
  ∧ extension (Some "application/srt") = ".srt"
  ∧ extension (Some "text/html") = ".html"
  ∧ extension None = ".txt"
  ∧ (t ∉ [Some "application/json"; Some "text/vtt"; Some "application/srt";
          Some "text/html"] → extension t = ".txt").
Proof.
  repeat split; try reflexivity.
  intros Ht. unfold extension.
  repeat (destruct (decide _) as [->|_]; [set_solver|]). done.
Qed.

(** A declared type that differs from [text/html] by case only is one of
    the other types. *)
Lemma extension_table_witness : extension (Some "TEXT/HTML") = ".txt".
Proof.
  apply (extension_table (Some "TEXT/HTML")).
  intros H. repeat (apply elem_of_cons in H as [H|H]; [discriminate H|]).
  by apply elem_of_nil in H.
Defined.

Lemma find_transcript_link_None (ls : list link) :
  (∀ l, l ∈ ls → rel l ≠ Some "transcript") →
  List.find is_transcript_link ls = None.
Proof.
  induction ls as [|l ls IH]; intros H; [done|]. simpl.
  unfold is_transcript_link at 1. rewrite bool_decide_eq_false_2.
  - apply IH. intros l' Hl'. apply H. by right.
  - apply H. by left.
Qed.

Lemma find_transcript_link_first (pre post : list link) (l : link) :
  (∀ x, x ∈ pre → rel x ≠ Some "transcript") →
  rel l = Some "transcript" →
  List.find is_transcript_link (pre ++ l :: post) = Some l.
Proof.
  intros Hpre Hl. induction pre as [|x pre IH]; simpl.
  - unfold is_transcript_link at 1. by rewrite bool_decide_eq_true_2.
  - unfold is_transcript_link at 1.
    rewrite bool_decide_eq_false_2 by (apply Hpre; by left).
    apply IH. intros y Hy. apply Hpre. by right.
Qed.

(** C2, as the code has it: when the extension field (the record itself, or
    the first element of a list) has a non-empty URL, the URL and the type
    are those of the extension field, whatever the links are; when the
    extension field is there and has no URL, an empty URL, or is an empty
    list, the URL and the type are the [href] and the [type] of the first
    link whose relation is [transcript]. *)
Theorem resolver_priority (e : entry) :
  (∀ d url,
     podcast_transcript e = Some (PTDict d)
     ∨ (∃ rest, podcast_transcript e = Some (PTList (d :: rest))) →
     tr_url d = Some url →
     url ≠ "" →
     resolve e = (Some url, tr_type d))
  ∧ (∀ pre l post,
       podcast_transcript e = Some (PTList [])
       ∨ (∃ d, (podcast_transcript e = Some (PTDict d)
                ∨ ∃ rest, podcast_transcript e = Some (PTList (d :: rest)))
               ∧ (tr_url d = None ∨ tr_url d = Some "")) →
       links e = Some (pre ++ l :: post) →
       (∀ x, x ∈ pre → rel x ≠ Some "transcript") →
       rel l = Some "transcript" →
       resolve e = (href l, ln_type l)).
Proof.
  split.
  - intros d url Hpt Hurl Hne. unfold resolve, from_extension.
    destruct url as [|c url]; [done|].
    destruct Hpt as [->|[rest ->]]; by rewrite Hurl.
  - intros pre l post Hpt Hlinks Hpre Hl.
    assert (∃ ty, from_extension e = (None, ty) ∨ from_extension e = (Some "", ty))
      as [ty Hext].
    { unfold from_extension.
      destruct Hpt as [->|(d & [->| [rest ->]] & [->| ->])]; eauto. }
    unfold resolve.
    destruct Hext as [-> | ->]; simpl; rewrite Hlinks;
      by rewrite (find_transcript_link_first pre post l Hpre Hl).
Qed.

Lemma resolver_priority_witness :
  resolve entry_vtt_and_link
  = (Some "https://cdn.example/pilot.vtt", Some "text/vtt")
  ∧ resolve entry_no_url_and_link
    = (Some "https://example.org/pilot.srt", Some "application/srt").
Proof.
  split.
  - apply (proj1 (resolver_priority entry_vtt_and_link)
             {| tr_url := Some "https://cdn.example/pilot.vtt";
                tr_type := Some "text/vtt" |}).
    + left. reflexivity.
    + reflexivity.
    + discriminate.
  - apply (proj2 (resolver_priority entry_no_url_and_link) []
             {| rel := Some "transcript";
                href := Some "https://example.org/pilot.srt";
                ln_type := Some "application/srt" |} []).
    + right. exists {| tr_url := None; tr_type := Some "text/vtt" |}.
      split; [left; reflexivity|left; reflexivity].
    + reflexivity.
    + intros x Hx. by apply elem_of_nil in Hx.
    + reflexivity.
Defined.

(** C2 as stated fails: the entry carries the extension field and a
    transcript link, and the URL and the type come from the link. *)
Lemma resolver_priority_fallback :
  podcast_transcript entry_no_url_and_link
  = Some (PTDict {| tr_url := None; tr_type := Some "text/vtt" |})
  ∧ from_extension entry_no_url_and_link = (None, Some "text/vtt")
  ∧ resolve entry_no_url_and_link
    = (Some "https://example.org/pilot.srt", Some "application/srt")
  ∧ resolve entry_no_url_and_link ≠ from_extension entry_no_url_and_link.
Proof. repeat split. discriminate. Qed.

(** *** Decimal numbers and the characters of a sanitized name *)

Module DateFacts.
Import PyFacts NameFacts.











(** *** The characters of a string *)







End DateFacts.


(** ** One entry *)

Lemma resolve_no_transcript (e : entry) :
  podcast_transcript e = None →
  (∀ ls l, links e = Some ls → l ∈ ls → rel l ≠ Some "transcript") →
  resolve e = (None, None).
Proof.
  intros Hpt Hls. unfold resolve, from_extension. rewrite Hpt. simpl.
  destruct (links e) as [ls|] eqn:E; [|done].
  rewrite find_transcript_link_None; [done|]. intros l. by apply Hls.
Qed.

Section EntryFacts.

Variable http_get : string → http_result.
Variable soup_get_text : string → string.
Variable utf8_encode : string → string.

Local Abbreviation process := (process_entry http_get soup_get_text utf8_encode).
Local Abbreviation append := (append_text utf8_encode).

Lemma append_text_lookup (p text : string) (m : gmap string string) :
  append p text m !! p = Some (default "" (m !! p) +:+ utf8_encode text).
Proof. apply lookup_insert_eq. Qed.

Lemma append_text_lookup_ne (p q text : string) (m : gmap string string) :
  p ≠ q → append p text m !! q = m !! q.
Proof. intros. by apply lookup_insert_ne. Qed.

(** C8: an entry with neither the extension field nor a transcript link
    takes the no-transcript branch: one row with reason [No Tag] is appended
    to the CSV, the skip counter grows by one, the other counters and every
    file but the log and the CSV stay as they were, and no URL is
    requested. *)
Theorem no_transcript_accounting (output_dir : string) (i : nat) (e : entry)
    (st : state) :
  podcast_transcript e = None →
  (∀ ls l, links e = Some ls → l ∈ ls → rel l ≠ Some "transcript") →
  let log_path := PosixPath.join output_dir log_name in
  let csv_path := PosixPath.join output_dir csv_name in
  let st' := (process output_dir i e st).1 in
  (process output_dir i e st).2 = SkippedNoTranscript
  ∧ fs st' !! csv_path
    = Some (default "" (fs st !! csv_path)
            +:+ utf8_encode
                  (csv_row [episode_title i e; "No Tag"; date_prefix e;
                            "No podcast:transcript tag found"]))
  ∧ skip_count st' = S (skip_count st)
  ∧ success_count st' = success_count st
  ∧ fail_count st' = fail_count st
  ∧ requests st' = requests st
  ∧ (∀ p, p ≠ log_path → p ≠ csv_path → fs st' !! p = fs st !! p).
Proof.
  intros Hpt Hls. unfold process_entry.
  rewrite (resolve_no_transcript e Hpt Hls). simpl.
  repeat split.
  - rewrite append_text_lookup, append_text_lookup_ne; [done|].
    apply NameFacts.log_not_csv.
  - intros p Hlog Hcsv. by rewrite !append_text_lookup_ne.
Qed.

(** C5: when the request for the transcript fails, the entry ends as
    [DownloadFailed] with the error of the request; the file of the episode,
    its converted text and every other file but the log and the CSV are as
    before; the failure counter grows by one and the CSV gets a row with
    reason [Download Error]. *)
Theorem download_failure_writes_nothing (output_dir : string) (i : nat)
    (e : entry) (st : state) (url err : string) (ty : option string) :
  resolve e = (Some url, ty) →
  url ≠ "" →
  let ext := extension ty in
  let filename := filename_of i e ext in
  let file_path := PosixPath.join output_dir filename in
  let txt_path :=
    PosixPath.join output_dir (Py.replace ".html" ".txt" filename) in
  let log_path := PosixPath.join output_dir log_name in
  let csv_path := PosixPath.join output_dir csv_name in
  PosixPath.exists_ (check_path_of file_path ext) (fs st) = false →
  http_get url = HttpError err →
  let st' := (process output_dir i e st).1 in
  (process output_dir i e st).2 = DownloadFailed err
  ∧ fs st' !! file_path = fs st !! file_path
  ∧ fs st' !! txt_path = fs st !! txt_path
  ∧ (∀ p, p ≠ log_path → p ≠ csv_path → fs st' !! p = fs st !! p)
  ∧ fs st' !! csv_path
    = Some (default "" (fs st !! csv_path)
            +:+ utf8_encode
                  (csv_row [episode_title i e; "Download Error"; date_prefix e;
                            err]))
  ∧ fail_count st' = S (fail_count st)
  ∧ success_count st' = success_count st
  ∧ skip_count st' = skip_count st
  ∧ requests st' = url :: requests st.
Proof.
  intros Hres Hurl ext filename file_path txt_path log_path csv_path Hex Hget.
  unfold process_entry. rewrite Hres.
  assert (Py.truthy (Some url) = true) as -> by by destruct url.
  simpl. fold ext filename file_path. rewrite Hex, Hget. simpl.
  assert (∀ p, p ≠ log_path → p ≠ csv_path →
            append csv_path
              (csv_row [episode_title i e; "Download Error"; date_prefix e; err])
              (append log_path
                 ("ERROR: " +:+ episode_title i e +:+ " - " +:+ err
                  +:+ Py.newline) (fs st)) !! p = fs st !! p) as Hframe.
  { intros p Hlog Hcsv. by rewrite !append_text_lookup_ne. }
  pose proof (NameFacts.artifact_not_log output_dir filename
                (NameFacts.filename_digit i e ext)) as [??].
  pose proof (NameFacts.artifact_not_log output_dir _
                (NameFacts.digit_first_replace _
                   (NameFacts.filename_digit i e ext))) as [??].
  repeat split; auto.
  rewrite append_text_lookup, append_text_lookup_ne; [done|].
  apply NameFacts.log_not_csv.
Qed.

(** When the file checked for exists, the entry is skipped without a
    request, and only the log changes. *)
Lemma process_entry_exists (output_dir : string) (i : nat) (e : entry)
    (st : state) (url : string) (ty : option string) :
  resolve e = (Some url, ty) →
  url ≠ "" →
  let ext := extension ty in
  let file_path := PosixPath.join output_dir (filename_of i e ext) in
  PosixPath.exists_ (check_path_of file_path ext) (fs st) = true →
  process output_dir i e st
  = (count_skip
       (with_fs (append (PosixPath.join output_dir log_name)
                   ("SKIP [Exists]: " +:+ episode_title i e +:+ Py.newline))
          st),
     SkippedAlreadyExists).
Proof.
  intros Hres Hurl ext file_path Hex. unfold process_entry. rewrite Hres.
  assert (Py.truthy (Some url) = true) as -> by by destruct url.
  simpl. fold ext file_path. by rewrite Hex.
Qed.

End EntryFacts.

(** ** The aggregate *)

Lemma elem_of_txt_files (d f : string) (m : gmap string string) :
  f ∈ txt_files d m ↔ f ∈ PosixPath.listdir d m ∧ eligible f = true.
Proof.
  unfold txt_files. rewrite merge_sort_Permutation.
  by rewrite !list_elem_of_In, filter_In.
Qed.

Lemma eligible_iff (f : string) :
  eligible f = true ↔
  Py.endswith ".txt" f = true ∧ Py.contains "All_Transcripts" f = false
  ∧ f ≠ log_name.
Proof.
  unfold eligible.
  rewrite !andb_true_iff, !negb_true_iff, bool_decide_eq_false. tauto.
Qed.


Lemma NoDup_txt_files (d : string) (m : gmap string string) :
  NoDup (txt_files d m).
Proof.
  unfold txt_files. rewrite merge_sort_Permutation.
  apply NoDup_ListNoDup, List.NoDup_filter, NoDup_ListNoDup.
  apply PathFacts.NoDup_listdir.
Qed.



Lemma agg_filename_relative (t : string) :
  Py.startswith "/" (sanitize_filename t +:+ "_All_Transcripts.txt") = false.
Proof.
  apply NameFacts.legal_startswith_slash; [apply NameFacts.sanitize_legal|done].
Qed.





Section AggregateFacts.

Variable utf8_encode : string → string.
Variable utf8_decode : string → option string.

Local Abbreviation aggregate := (create_aggregated_file utf8_encode utf8_decode).
Local Abbreviation section_of := (episode_section utf8_encode utf8_decode).




End AggregateFacts.

(** ** The properties on the example feed *)

Lemma no_transcript_accounting_witness :
  let r := process_entry example_http example_get_text example_encode
             "downloads/Pod" 2 entry_bare (empty_state ∅) in
  r.2 = SkippedNoTranscript
  ∧ fs r.1 !! "downloads/Pod/skipped_episodes.csv"
    = Some ("Episode_2,No Tag,0000-00-00,No podcast:transcript tag found"
            +:+ Py.cr +:+ Py.newline)
  ∧ skip_count r.1 = 1
  ∧ requests r.1 = [].
Proof.
  assert (∀ ls l, links entry_bare = Some ls → l ∈ ls →
                  rel l ≠ Some "transcript") as Hlinks.
  { intros ls l [= <-] Hl. apply list_elem_of_singleton in Hl as ->. discriminate. }
  destruct (no_transcript_accounting example_http example_get_text
              example_encode "downloads/Pod" 2 entry_bare (empty_state ∅)
              eq_refl Hlinks) as (H1 & H2 & H3 & _ & _ & H6 & _).
  split_and!; [exact H1|exact H2|exact H3|exact H6].
Defined.

Lemma download_failure_writes_nothing_witness :
  let r := process_entry example_http example_get_text example_encode
             "downloads/Pod" 3 entry_gone (empty_state ∅) in
  r.2 = DownloadFailed "404 Client Error"
  ∧ fs r.1 !! "downloads/Pod/0000-00-00_Four.txt" = None
  ∧ fail_count r.1 = 1
  ∧ requests r.1 = ["https://example.org/ep4.txt"].
Proof.
  destruct (download_failure_writes_nothing example_http example_get_text
              example_encode "downloads/Pod" 3 entry_gone (empty_state ∅)
              "https://example.org/ep4.txt" "404 Client Error" None
              eq_refl ltac:(discriminate) eq_refl eq_refl)
    as (H1 & H2 & _ & _ & _ & H6 & _ & _ & H9).
  split_and!; [exact H1|exact H2|exact H6|exact H9].
Defined.



(** C7 at an output directory with three dated transcripts and the
    transcript of an episode titled [All_Transcripts explained]: that file
    is one the tool stores itself, it is in the directory, its name ends in
    [.txt] and is neither the log nor the aggregate, and the aggregate is
    written from the three other files without it. *)
Theorem aggregate_skips_episode :
  (process_entry example_http example_get_text example_encode "downloads/Pod"
     3 entry_explained (empty_state ∅)).2
  = Success "downloads/Pod/2023-03-01_All_Transcripts explained.txt"
  ∧ "2023-03-01_All_Transcripts explained.txt"
    ∈ PosixPath.listdir "downloads/Pod" example_dir
  ∧ Py.endswith ".txt" "2023-03-01_All_Transcripts explained.txt" = true
  ∧ "2023-03-01_All_Transcripts explained.txt" ≠ log_name
  ∧ "2023-03-01_All_Transcripts explained.txt"
    ≠ sanitize_filename "Pod" +:+ "_All_Transcripts.txt"
  ∧ txt_files "downloads/Pod" example_dir
    = ["2023-01-01_One.txt"; "2023-01-15_Two.txt"; "2023-02-01_Three.txt"]
  ∧ ("2023-03-01_All_Transcripts explained.txt"
     ∉ txt_files "downloads/Pod" example_dir)
  ∧ (let nl := String "010" "" in
     let hyphens :=
       "--------------------------------------------------------------------------------" in
     let equals :=
       "================================================================================" in
     create_aggregated_file example_encode example_decode "downloads/Pod"
       "Pod" "2024-05-01 10:00:09" example_dir
     !! "downloads/Pod/Pod_All_Transcripts.txt"
     = Some ("AGGREGATED TRANSCRIPTS FOR: Pod" +:+ nl
             +:+ "Generated: 2024-05-01 10:00:09" +:+ nl
             +:+ equals +:+ nl +:+ nl
             +:+ "EPISODE: 2023-01-01_One.txt" +:+ nl
             +:+ hyphens +:+ nl
             +:+ "first" +:+ nl +:+ nl +:+ equals +:+ nl +:+ nl
             +:+ "EPISODE: 2023-01-15_Two.txt" +:+ nl
             +:+ hyphens +:+ nl
             +:+ "second" +:+ nl +:+ nl +:+ equals +:+ nl +:+ nl
             +:+ "EPISODE: 2023-02-01_Three.txt" +:+ nl
             +:+ hyphens +:+ nl
             +:+ "third" +:+ nl +:+ nl +:+ equals +:+ nl +:+ nl)).
Proof.
  split_and!.
  - vm_compute. reflexivity.
  - apply PathFacts.elem_of_listdir. split_and!.
    + exists "fourth". vm_compute. reflexivity.
    + discriminate.
    + vm_compute. reflexivity.
  - vm_compute. reflexivity.
  - discriminate.
  - vm_compute. discriminate.
  - vm_compute. reflexivity.
  - intros [_ (_ & Hc & _)%eligible_iff]%elem_of_txt_files. discriminate Hc.
  - vm_compute. reflexivity.
Qed.

(** ** Feeds whose title contains [.html] *)

(** C1 at a feed titled [Learn.html]: the HTML episode that succeeded in the
    first run is downloaded again in the second, whose success counter is 1;
    under the title [Pod] the same feed is skipped as the claim says. *)
Theorem rerun_downloads_html_again :
  branches (first_run "Learn.html")
  = [Success "downloads/Learn.html/2023-01-05_Ep 1 AB.txt";
     Success "downloads/Learn.html/0000-00-00_Two.vtt";
     SkippedNoTranscript; DownloadFailed "404 Client Error"]
  ∧ branches (second_run "Learn.html")
    = [Success "downloads/Learn.html/2023-01-05_Ep 1 AB.txt";
       SkippedAlreadyExists; SkippedNoTranscript;
       DownloadFailed "404 Client Error"]
  ∧ success_count (final_state (second_run "Learn.html")) = 1
  ∧ branches (second_run "Pod")
    = [SkippedAlreadyExists; SkippedAlreadyExists; SkippedNoTranscript;
       DownloadFailed "404 Client Error"]
  ∧ success_count (final_state (second_run "Pod")) = 0.
Proof. split_and!; vm_compute; reflexivity. Qed.

(** C4 at the same feed: after the first run the converted text is on disk,
    the path checked is in another directory and does not exist, and the
    entry is requested and stored again. *)
Theorem check_misses_converted_text :
  let d := "downloads/Learn.html" in
  let st := final_state (first_run "Learn.html") in
  let filename := filename_of 0 entry_html (extension (Some "text/html")) in
  let r := process_entry example_http example_get_text example_encode d 0
             entry_html st in
  PosixPath.exists_
    (PosixPath.join d (Py.replace ".html" ".txt" filename)) (fs st) = true
  ∧ check_path_of (PosixPath.join d filename) ".html"
    = "downloads/Learn.txt/2023-01-05_Ep 1 AB.txt"
  ∧ PosixPath.exists_ (check_path_of (PosixPath.join d filename) ".html")
      (fs st) = false
  ∧ r.2 = Success "downloads/Learn.html/2023-01-05_Ep 1 AB.txt"
  ∧ requests r.1 = "https://example.org/ep1.html" :: requests st.
Proof. split_and!; vm_compute; reflexivity. Qed.

(** C9 at the same feed: the file name has [.html] as its extension only,
    the converted text is written next to it under the name with the
    extension swapped, and the path checked differs from it, the directory
    being rewritten as well. *)
Theorem check_path_rewrites_directory :
  let d := "downloads/Learn.html" in
  let filename := filename_of 0 entry_html (extension (Some "text/html")) in
  filename = "2023-01-05_Ep 1 AB.html"
  ∧ Py.contains ".html" "2023-01-05_Ep 1 AB" = false
  ∧ PosixPath.join d (Py.replace ".html" ".txt" filename)
    = "downloads/Learn.html/2023-01-05_Ep 1 AB.txt"
  ∧ check_path_of (PosixPath.join d filename) ".html"
    = "downloads/Learn.txt/2023-01-05_Ep 1 AB.txt".
Proof. split_and!; vm_compute; reflexivity. Qed.

(** ** Replacing the extension in a path *)

Module ReplaceFacts.
Import PyFacts PathFacts NameFacts.

Lemma contains_false_app_l (q x y : string) :
  Py.contains q (x +:+ y) = false → Py.contains q x = false.
Proof.
  intros H. destruct (Py.contains q x) eqn:E; [|done].
  apply contains_inv in E as (l & r & ->).
  by rewrite !app_assoc, contains_app in H.
Qed.

Lemma startswith_contains (q s : string) :
  Py.startswith q s = true → Py.contains q s = true.
Proof. intros H. destruct s; simpl; by rewrite H. Qed.

(** A prefix of [a +:+ f] is a prefix of [a], or [a] is a prefix of it. *)
Lemma startswith_app_cases (q a f : string) :
  Py.startswith q (a +:+ f) = true →
  Py.startswith q a = true ∨ ∃ r, q = a +:+ r ∧ Py.startswith r f = true.
Proof.
  revert a. induction q as [|c q IH]; intros a H.
  - left. by destruct a.
  - destruct a as [|b a].
    + right. by exists (String c q).
    + rewrite app_cons in H. simpl in *.
      destruct (decide (c = b)) as [->|]; [|done].
      destruct (IH a H) as [?|(r & -> & ?)]; [by left|].
      right. by exists r.
Qed.

(** No occurrence of [.html] starts in a directory without one, whatever
    follows the separator. *)
Lemma no_match_in_dir (d f : string) :
  Py.contains ".html" d = false →
  d ≠ "" →
  Py.startswith ".html" (d +:+ "/" +:+ f) = false.
Proof.
  intros Hd Hne. destruct (Py.startswith ".html" (d +:+ "/" +:+ f)) eqn:E; [|done].
  apply startswith_app_cases in E as [E|(r & Hq & Hr)].
  - apply startswith_contains in E. congruence.
  - destruct r as [|c r].
    + rewrite app_nil_r in Hq. subst d. done.
    + rewrite app_cons in Hr. simpl in Hr.
      destruct (decide (c = "/"%char)) as [->|]; [|done].
      pose proof (contains_app d "/" r) as Hc.
      change ("/" +:+ r) with (String "/"%char r) in Hc.
      rewrite <-Hq in Hc. discriminate Hc.
Qed.

Lemma replace_dir (d f : string) :
  Py.contains ".html" d = false →
  Py.replace ".html" ".txt" (d +:+ "/" +:+ f)
  = d +:+ "/" +:+ Py.replace ".html" ".txt" f.
Proof.
  unfold Py.replace. induction d as [|c d IH]; intros Hd.
  - done.
  - pose proof (no_match_in_dir (String c d) f Hd ltac:(done)) as Hn.
    rewrite !app_cons in *. cbn [Py.replace_from]. rewrite Hn.
    f_equal. apply IH. simpl in Hd. by apply orb_false_iff in Hd as [_ ?].
Qed.

Lemma replace_dir_prefix (d f : string) :
  Py.contains ".html" d = false →
  Py.replace ".html" ".txt" (PosixPath.dir_prefix d +:+ f)
  = PosixPath.dir_prefix d +:+ Py.replace ".html" ".txt" f.
Proof.
  intros Hd. unfold PosixPath.dir_prefix, PosixPath.join. simpl.
  destruct (decide (d = "")) as [->|_]; [done|].
  destruct (Py.endswith "/" d) eqn:E.
  - apply endswith_inv in E as [x ->]. rewrite !app_nil_r, !app_assoc.
    apply replace_dir. by apply contains_false_app_l in Hd.
  - rewrite !app_nil_r, !app_assoc. by apply replace_dir.
Qed.

(** In an output directory without [.html] the path checked for an HTML
    transcript is the path of its converted text. *)
Lemma check_path_join (d f : string) :
  Py.contains ".html" d = false →
  digit_first f →
  Py.replace ".html" ".txt" (PosixPath.join d f)
  = PosixPath.join d (Py.replace ".html" ".txt" f).
Proof.
  intros Hd Hf.
  rewrite !join_relative
    by auto using digit_first_relative, digit_first_replace.
  by apply replace_dir_prefix.
Qed.

End ReplaceFacts.

(** ** A second run *)

Lemma grows_refl (m : gmap string string) : grows m m.
Proof. by intros p. Qed.

Lemma grows_trans (m1 m2 m3 : gmap string string) :
  grows m1 m2 → grows m2 m3 → grows m1 m3.
Proof. intros H12 H23 p Hp. by apply H23, H12. Qed.

Lemma grows_insert (m1 m2 : gmap string string) (p v : string) :
  grows m1 m2 → grows m1 (<[p:=v]> m2).
Proof.
  intros H q Hq. destruct (decide (p = q)) as [->|].
  - rewrite lookup_insert_eq. by eexists.
  - rewrite lookup_insert_ne by done. by apply H.
Qed.

Lemma is_Some_insert (m : gmap string string) (p q v : string) :
  is_Some (m !! q) → is_Some (<[p:=v]> m !! q).
Proof. apply (grows_insert m m p v (grows_refl m)). Qed.

Lemma truthy_Some (u : option string) :
  Py.truthy u = true → ∃ url, u = Some url ∧ url ≠ "".
Proof. destruct u as [[|c s]|]; try done. intros _. by eexists. Qed.

Lemma exists_true (p : string) (m : gmap string string) :
  PosixPath.exists_ p m = true ↔ is_Some (m !! p).
Proof. unfold PosixPath.exists_. apply bool_decide_eq_true. Qed.

Lemma process_entries_cons (http_get : string → http_result)
    (soup_get_text utf8_encode : string → string) (d : string) (i : nat)
    (e : entry) (es : list entry) (st : state) :
  let r := process_entry http_get soup_get_text utf8_encode d i e st in
  let rs := process_entries http_get soup_get_text utf8_encode d (S i) es r.1 in
  process_entries http_get soup_get_text utf8_encode d i (e :: es) st
  = (rs.1, r.2 :: rs.2).
Proof.
  simpl. destruct (process_entry _ _ _ d i e st) as [st1 o]. simpl.
  by destruct (process_entries _ _ _ d (S i) es st1).
Qed.

Section RunFacts.

Variable http_get : string → http_result.
Variable feedparser_parse : string → parsed_feed.
Variable soup_get_text : string → string.
Variable utf8_encode : string → string.
Variable utf8_decode : string → option string.

Local Abbreviation process := (process_entry http_get soup_get_text utf8_encode).
Local Abbreviation process_all :=
  (process_entries http_get soup_get_text utf8_encode).
Local Abbreviation append := (append_text utf8_encode).
Local Abbreviation aggregate := (create_aggregated_file utf8_encode utf8_decode).

Lemma grows_append (m1 m2 : gmap string string) (p text : string) :
  grows m1 m2 → grows m1 (append p text m2).
Proof. apply grows_insert. Qed.

Lemma step_grows (d : string) (i : nat) (e : entry) (st : state) :
  grows (fs st) (fs (process d i e st).1).
Proof.
  unfold process_entry. destruct (resolve e) as [u ty].
  destruct (Py.truthy u); simpl;
    [destruct (PosixPath.exists_ _ _); simpl;
       [|destruct (http_get _); [destruct (decide _)|]; simpl]|];
    repeat apply grows_insert; apply grows_refl.
Qed.

Lemma entries_grow (d : string) (es : list entry) (i : nat) (st : state) :
  grows (fs st) (fs (process_all d i es st).1).
Proof.
  revert i st. induction es as [|e es IH]; intros i st; [apply grows_refl|].
  rewrite process_entries_cons. simpl.
  eapply grows_trans; [apply step_grows|apply IH].
Qed.

Lemma entries_length (d : string) (es : list entry) (i : nat) (st : state) :
  length (process_all d i es st).2 = length es.
Proof.
  revert i st. induction es as [|e es IH]; intros i st; [done|].
  rewrite process_entries_cons. simpl. by rewrite IH.
Qed.

(** After an entry succeeded or was skipped as existing, the path checked
    for it exists, provided the output directory holds no [.html]. *)
Lemma step_leaves_check_path (d : string) (i : nat) (e : entry) (st : state) :
  Py.contains ".html" d = false →
  (∃ p, (process d i e st).2 = Success p)
  ∨ (process d i e st).2 = SkippedAlreadyExists →
  is_Some (fs (process d i e st).1 !! entry_check_path d i e).
Proof.
  intros Hd. unfold entry_check_path, process_entry.
  destruct (resolve e) as [u ty]. simpl.
  destruct (Py.truthy u); simpl; [|by intros [[??]|?]].
  destruct (PosixPath.exists_ _ _) eqn:Hex; simpl.
  - intros _. apply exists_true in Hex. by apply is_Some_insert.
  - destruct (http_get _); simpl; [|by intros [[??]|?]].
    intros _. unfold check_path_of.
    destruct (decide (extension ty = ".html")) as [Hext|Hext]; simpl.
    + rewrite ReplaceFacts.check_path_join
        by auto using NameFacts.filename_digit.
      apply is_Some_insert. rewrite Hext, lookup_insert_eq. by eexists.
    + apply is_Some_insert. rewrite lookup_insert_eq. by eexists.
Qed.

Lemma process_entry_no_url (d : string) (i : nat) (e : entry) (st : state) :
  Py.truthy (resolve e).1 = false →
  process d i e st
  = (count_skip
       (with_fs (append (PosixPath.join d csv_name)
                   (csv_row [episode_title i e; "No Tag"; date_prefix e;
                             "No podcast:transcript tag found"]))
          (with_fs (append (PosixPath.join d log_name)
                      ("SKIP [No Tag]: " +:+ episode_title i e +:+ Py.newline))
             st)),
     SkippedNoTranscript).
Proof.
  unfold process_entry. destruct (resolve e) as [u ty]. simpl. by intros ->.
Qed.

Lemma process_entry_error (d : string) (i : nat) (e : entry) (st : state)
    (url err : string) (ty : option string) :
  resolve e = (Some url, ty) →
  url ≠ "" →
  PosixPath.exists_ (entry_check_path d i e) (fs st) = false →
  http_get url = HttpError err →
  process d i e st
  = (count_fail
       (with_fs (append (PosixPath.join d csv_name)
                   (csv_row [episode_title i e; "Download Error";
                             date_prefix e; err]))
          (with_fs (append (PosixPath.join d log_name)
                      ("ERROR: " +:+ episode_title i e +:+ " - " +:+ err
                       +:+ Py.newline))
             (requested url st))),
     DownloadFailed err).
Proof.
  intros Hres Hurl Hex Hget. unfold entry_check_path in Hex.
  destruct url as [|c url]; [done|].
  unfold process_entry. rewrite Hres in *. simpl in *.
  by rewrite Hex, Hget.
Qed.

Lemma process_entry_ok (d : string) (i : nat) (e : entry) (st : state)
    (url content : string) (ty : option string) :
  resolve e = (Some url, ty) →
  url ≠ "" →
  PosixPath.exists_ (entry_check_path d i e) (fs st) = false →
  http_get url = HttpOk content →
  ∃ p, (process d i e st).2 = Success p.
Proof.
  intros Hres Hurl Hex Hget. unfold entry_check_path in Hex.
  destruct url as [|c url]; [done|].
  unfold process_entry. rewrite Hres in *. simpl in *.
  rewrite Hex, Hget. destruct (decide _); by eexists.
Qed.

Lemma process_entry_skip (d : string) (i : nat) (e : entry) (st : state)
    (url : string) (ty : option string) :
  resolve e = (Some url, ty) →
  url ≠ "" →
  PosixPath.exists_ (entry_check_path d i e) (fs st) = true →
  process d i e st
  = (count_skip
       (with_fs (append (PosixPath.join d log_name)
                   ("SKIP [Exists]: " +:+ episode_title i e +:+ Py.newline))
          st),
     SkippedAlreadyExists).
Proof.
  intros Hres Hurl Hex. unfold entry_check_path in Hex. rewrite Hres in Hex.
  by apply (process_entry_exists _ _ _ d i e st url ty).
Qed.

(** An entry processed again on a file system that holds what its first
    processing left: it does not succeed, it is skipped as existing when it
    succeeded the first time, and only the log and the CSV change. *)
Lemma step_rerun (d : string) (i : nat) (e : entry) (st s2 : state) :
  Py.contains ".html" d = false →
  grows (fs (process d i e st).1) (fs s2) →
  ((∃ p, (process d i e st).2 = Success p) →
   (process d i e s2).2 = SkippedAlreadyExists)
  ∧ (∀ p, (process d i e s2).2 ≠ Success p)
  ∧ success_count (process d i e s2).1 = success_count s2
  ∧ (∀ p, p ≠ PosixPath.join d log_name → p ≠ PosixPath.join d csv_name →
          fs (process d i e s2).1 !! p = fs s2 !! p).
Proof.
  intros Hd Hgrow.
  pose proof (step_leaves_check_path d i e st Hd) as Hleft.
  destruct (resolve e) as [u ty] eqn:Hres.
  destruct (Py.truthy u) eqn:Hu.
  - apply truthy_Some in Hu as (url & -> & Hurl).
    destruct (PosixPath.exists_ (entry_check_path d i e) (fs s2)) eqn:Hex2.
    { rewrite (process_entry_skip d i e s2 url ty Hres Hurl Hex2). simpl.
      split_and!; try done. intros p Hlog _. by apply append_text_lookup_ne. }
    assert (¬ ((∃ p, (process d i e st).2 = Success p)
               ∨ (process d i e st).2 = SkippedAlreadyExists)) as Hnot.
    { intros H. apply Hleft, Hgrow, exists_true in H. congruence. }
    destruct (http_get url) as [content|err] eqn:Hget.
    + exfalso. apply Hnot.
      destruct (PosixPath.exists_ (entry_check_path d i e) (fs st)) eqn:Hex1.
      * right. by rewrite (process_entry_skip d i e st url ty Hres Hurl Hex1).
      * left. by apply (process_entry_ok d i e st url content ty).
    + rewrite (process_entry_error d i e s2 url err ty Hres Hurl Hex2 Hget).
      simpl. split_and!; try done.
      * intros H. destruct Hnot. by left.
      * intros p Hlog Hcsv. by rewrite !append_text_lookup_ne.
  - assert (Py.truthy (resolve e).1 = false) as Hno by by rewrite Hres.
    rewrite (process_entry_no_url d i e s2 Hno).
    rewrite (process_entry_no_url d i e st Hno). simpl.
    split_and!; try done.
    + by intros [??].
    + intros p Hlog Hcsv. by rewrite !append_text_lookup_ne.
Qed.

End RunFacts.

(** ** [sanitize_filename] twice *)

Lemma remove_illegal_id (s : string) :
  all_chars (λ c, negb (is_illegal c)) s = true → remove_illegal s = s.
Proof.
  induction s as [|c s IH]; [done|]. simpl. intros [Hc Hs]%andb_true_iff.
  apply negb_true_iff in Hc. rewrite Hc. by rewrite IH.
Qed.

Lemma lstrip_id (s : string) :
  (∀ c, first_char s = Some c → Py.isspace c = false) → Py.lstrip s = s.
Proof. destruct s as [|c s]; [done|]. simpl. intros H. by rewrite (H c). Qed.

Lemma rstrip_idemp (s : string) : Py.rstrip (Py.rstrip s) = Py.rstrip s.
Proof.
  induction s as [|c s IH]; [done|]. simpl.
  destruct (Py.rstrip s) as [|b t] eqn:Ht.
  - destruct (Py.isspace c) eqn:Hc; [done|]. simpl. by rewrite Hc.
  - simpl in *. by rewrite IH.
Qed.

Lemma strip_idemp (s : string) : Py.strip (Py.strip s) = Py.strip s.
Proof.
  unfold Py.strip at 1. rewrite lstrip_id; [apply rstrip_idemp|].
  apply NameFacts.strip_first.
Qed.

Lemma sanitize_filename_twice (s : string) :
  sanitize_filename (sanitize_filename s) = sanitize_filename s.
Proof.
  unfold sanitize_filename at 1.
  rewrite remove_illegal_id by apply NameFacts.sanitize_legal.
  apply strip_idemp.
Qed.

(** X3: the title of the feed is sanitized for the directory (line 85) and
    once more for the name of the aggregate (line 38): sanitizing a
    sanitized name changes nothing, so both are built from the same name. *)
Theorem sanitize_filename_idempotent (s : string) :
  sanitize_filename (sanitize_filename s) = sanitize_filename s.
Proof. apply sanitize_filename_twice. Qed.

(** ** A whole run *)

Section WholeRun.

Variable http_get : string → http_result.
Variable feedparser_parse : string → parsed_feed.
Variable soup_get_text : string → string.
Variable utf8_encode : string → string.
Variable utf8_decode : string → option string.

Local Abbreviation process := (process_entry http_get soup_get_text utf8_encode).
Local Abbreviation process_all :=
  (process_entries http_get soup_get_text utf8_encode).
Local Abbreviation aggregate := (create_aggregated_file utf8_encode utf8_decode).
Local Abbreviation run :=
  (get_transcripts http_get feedparser_parse soup_get_text utf8_encode
     utf8_decode).

Lemma aggregate_frame (d t now p : string) (m : gmap string string) :
  p ≠ PosixPath.join d (sanitize_filename t +:+ "_All_Transcripts.txt") →
  aggregate d t now m !! p = m !! p.
Proof.
  intros Hp. unfold create_aggregated_file.
  destruct (txt_files d m); [done|]. by rewrite !lookup_insert_ne.
Qed.

Lemma aggregate_grows (d t now : string) (m : gmap string string) :
  grows m (aggregate d t now m).
Proof.
  unfold create_aggregated_file. destruct (txt_files d m); [apply grows_refl|].
  do 2 apply grows_insert. apply grows_refl.
Qed.

(** A run whose feed is fetched and has a title goes through the loop and
    the aggregation. *)
Lemma get_transcripts_finished (rss_url output_base now_start now_agg : string)
    (disk : gmap string string) (feed_content t : string) :
  http_get rss_url = HttpOk feed_content →
  feed_title (feedparser_parse feed_content) = Some t →
  let d := PosixPath.join output_base (sanitize_filename t) in
  d ≠ "" →
  let r := process_all d 0 (entries (feedparser_parse feed_content))
             (loop_start utf8_encode d rss_url now_start disk) in
  run rss_url output_base now_start now_agg disk
  = Finished (with_fs (aggregate d (sanitize_filename t) now_agg) r.1) r.2.
Proof.
  intros Hget Ht d Hd r. unfold get_transcripts. rewrite Hget, Ht.
  fold d. rewrite decide_False by done. fold (loop_start utf8_encode d rss_url now_start disk).
  fold r. by destruct r.
Qed.

Lemma loop_start_grows (d rss_url now : string) (disk : gmap string string) :
  grows disk (fs (loop_start utf8_encode d rss_url now disk)).
Proof.
  unfold loop_start. simpl. destruct (PosixPath.exists_ _ _); simpl;
    repeat apply grows_insert; apply grows_refl.
Qed.

Lemma loop_start_frame (d rss_url now p : string) (disk : gmap string string) :
  p ≠ PosixPath.join d log_name → p ≠ PosixPath.join d csv_name →
  fs (loop_start utf8_encode d rss_url now disk) !! p = disk !! p.
Proof.
  intros Hlog Hcsv. unfold loop_start. simpl.
  destruct (PosixPath.exists_ _ _); simpl;
    rewrite append_text_lookup_ne by done; [done|].
  by rewrite lookup_insert_ne.
Qed.

Lemma loop_start_success (d rss_url now : string) (disk : gmap string string) :
  success_count (loop_start utf8_encode d rss_url now disk) = 0.
Proof. unfold loop_start. simpl. by destruct (PosixPath.exists_ _ _). Qed.

(** The entries processed again on a file system that holds what their first
    processing left *)
Lemma entries_rerun (d : string) (es : list entry) (i : nat) (st s2 : state) :
  Py.contains ".html" d = false →
  grows (fs (process_all d i es st).1) (fs s2) →
  (∀ k p, (process_all d i es st).2 !! k = Some (Success p) →
          (process_all d i es s2).2 !! k = Some SkippedAlreadyExists)
  ∧ (∀ k p, (process_all d i es s2).2 !! k ≠ Some (Success p))
  ∧ success_count (process_all d i es s2).1 = success_count s2
  ∧ (∀ p, p ≠ PosixPath.join d log_name → p ≠ PosixPath.join d csv_name →
          fs (process_all d i es s2).1 !! p = fs s2 !! p).
Proof.
  intros Hd. revert i st s2.
  induction es as [|e es IH]; intros i st s2 Hgrow; [done|].
  rewrite !process_entries_cons in *. simpl in *.
  assert (grows (fs (process d i e st).1) (fs s2)) as Hhead
    by (eapply grows_trans; [apply entries_grow|done]).
  destruct (step_rerun http_get soup_get_text utf8_encode d i e st s2 Hd Hhead)
    as (H1 & H2 & H3 & H4).
  assert (grows (fs (process_all d (S i) es (process d i e st).1).1)
            (fs (process d i e s2).1)) as Htail
    by (eapply grows_trans; [done|apply step_grows]).
  destruct (IH (S i) _ _ Htail) as (T1 & T2 & T3 & T4).
  split_and!.
  - intros [|k] p; simpl; [|apply T1]. intros [= Ho]. f_equal. apply H1. eauto.
  - intros [|k] p; simpl; [|apply T2]. intros [= Ho]. by apply (H2 p).
  - by rewrite T3.
  - intros p Hlog Hcsv. by rewrite T4, H4.
Qed.

(** X2: in an output directory whose path holds no [.html], a second run on
    what the first run left, with the same responses of the network, skips
    as existing every entry that succeeded in the first run, counts no
    success, and leaves every file but the log, the CSV and the aggregate
    as the first run left it. *)
Theorem rerun_skips_successes
    (rss_url output_base now1 now1' now2 now2' feed_content t : string)
    (disk : gmap string string) :
  http_get rss_url = HttpOk feed_content →
  feed_title (feedparser_parse feed_content) = Some t →
  let d := PosixPath.join output_base (sanitize_filename t) in
  d ≠ "" →
  Py.contains ".html" d = false →
  ∃ st1 log1 st2 log2,
    run rss_url output_base now1 now1' disk = Finished st1 log1
    ∧ run rss_url output_base now2 now2' (fs st1) = Finished st2 log2
    ∧ length log1 = length (entries (feedparser_parse feed_content))
    ∧ length log2 = length log1
    ∧ (∀ k p, log1 !! k = Some (Success p) →
              log2 !! k = Some SkippedAlreadyExists)
    ∧ (∀ k p, log2 !! k ≠ Some (Success p))
    ∧ success_count st2 = 0
    ∧ (∀ p, p ≠ PosixPath.join d log_name →
            p ≠ PosixPath.join d csv_name →
            p ≠ PosixPath.join d
                  (sanitize_filename t +:+ "_All_Transcripts.txt") →
            fs st2 !! p = fs st1 !! p).
Proof.
  intros Hget Ht d Hne Hd.
  pose proof (get_transcripts_finished rss_url output_base now1 now1' disk
                feed_content t Hget Ht Hne) as R1.
  set (es := entries (feedparser_parse feed_content)) in *.
  set (sA := loop_start utf8_encode d rss_url now1 disk) in *.
  set (st1 := with_fs (aggregate d (sanitize_filename t) now1')
                (process_all d 0 es sA).1) in *.
  pose proof (get_transcripts_finished rss_url output_base now2 now2' (fs st1)
                feed_content t Hget Ht Hne) as R2.
  fold d es in R2.
  set (sB := loop_start utf8_encode d rss_url now2 (fs st1)) in *.
  assert (grows (fs (process_all d 0 es sA).1) (fs sB)) as Hgrow.
  { eapply grows_trans; [apply aggregate_grows|apply loop_start_grows]. }
  destruct (entries_rerun d es 0 sA sB Hd Hgrow) as (H1 & H2 & H3 & H4).
  eexists _, _, _, _. split_and!; [exact R1|exact R2|..].
  - apply entries_length.
  - by rewrite !entries_length.
  - exact H1.
  - exact H2.
  - simpl. rewrite H3. apply loop_start_success.
  - intros p Hlog Hcsv Hagg. simpl.
    rewrite aggregate_frame
      by by rewrite sanitize_filename_twice.
    rewrite H4 by done. by apply loop_start_frame.
Qed.

End WholeRun.

(** ** What a run counts, requests and keeps *)

Lemma appended_at_refl (p : string) (m : gmap string string) :
  appended_at p m m.
Proof. intros old H. exists "". by rewrite PyFacts.app_nil_r. Qed.

Lemma appended_at_trans (p : string) (m1 m2 m3 : gmap string string) :
  appended_at p m1 m2 → appended_at p m2 m3 → appended_at p m1 m3.
Proof.
  intros H12 H23 old H. destruct (H12 old H) as [s1 H2].
  destruct (H23 _ H2) as [s2 H3]. exists (s1 +:+ s2).
  by rewrite <-PyFacts.app_assoc.
Qed.

Lemma appended_at_insert_ne (p q v : string) (m1 m2 : gmap string string) :
  q ≠ p → appended_at p m1 m2 → appended_at p m1 (<[q:=v]> m2).
Proof. intros Hq H old Hold. rewrite lookup_insert_ne by done. by apply H. Qed.

Lemma appended_at_append (utf8_encode : string → string) (p q text : string)
    (m1 m2 : gmap string string) :
  appended_at p m1 m2 → appended_at p m1 (append_text utf8_encode q text m2).
Proof.
  intros H old Hold. destruct (H old Hold) as [s Hs]. unfold append_text.
  destruct (decide (q = p)) as [->|Hne].
  - rewrite lookup_insert_eq, Hs. simpl. exists (s +:+ utf8_encode text).
    by rewrite PyFacts.app_assoc.
  - rewrite lookup_insert_ne by done. by exists s.
Qed.

Lemma aggregate_not_log (d t : string) :
  PosixPath.join d (sanitize_filename t +:+ "_All_Transcripts.txt")
  ≠ PosixPath.join d log_name
  ∧ PosixPath.join d (sanitize_filename t +:+ "_All_Transcripts.txt")
    ≠ PosixPath.join d csv_name.
Proof.
  assert (Py.contains "All_Transcripts"
            (sanitize_filename t +:+ "_All_Transcripts.txt") = true) as Hc.
  { assert (sanitize_filename t +:+ "_All_Transcripts.txt"
            = (sanitize_filename t +:+ "_") +:+ "All_Transcripts" +:+ ".txt")
      as -> by by rewrite PyFacts.app_assoc.
    apply PyFacts.contains_app. }
  split; intros Heq%PathFacts.join_inj;
    try apply agg_filename_relative; try done;
    rewrite Heq in Hc; discriminate Hc.
Qed.

Section Accounting.

Variable http_get : string → http_result.
Variable feedparser_parse : string → parsed_feed.
Variable soup_get_text : string → string.
Variable utf8_encode : string → string.
Variable utf8_decode : string → option string.

Local Abbreviation process := (process_entry http_get soup_get_text utf8_encode).
Local Abbreviation process_all :=
  (process_entries http_get soup_get_text utf8_encode).
Local Abbreviation aggregate := (create_aggregated_file utf8_encode utf8_decode).
Local Abbreviation run :=
  (get_transcripts http_get feedparser_parse soup_get_text utf8_encode
     utf8_decode).

Ltac step_cases :=
  unfold process_entry; destruct (resolve _) as [u ty];
  destruct (Py.truthy u); simpl;
  [destruct (PosixPath.exists_ _ _); simpl;
   [|destruct (http_get _); [destruct (decide _)|]; simpl]|].

(** Each entry adds one to the counter of its outcome, and a request exactly
    when it succeeds or fails. *)
Lemma step_counts (d : string) (i : nat) (e : entry) (st : state) :
  let r := process d i e st in
  success_count r.1 = success_count st + count_outcomes is_success [r.2]
  ∧ skip_count r.1 = skip_count st + count_outcomes is_skip [r.2]
  ∧ fail_count r.1 = fail_count st + count_outcomes is_fail [r.2]
  ∧ length (requests r.1)
    = length (requests st) + count_outcomes is_success [r.2]
      + count_outcomes is_fail [r.2].
Proof. step_cases; unfold count_outcomes; simpl; lia. Qed.

Lemma count_outcomes_cons (f : outcome → bool) (o : outcome)
    (log : list outcome) :
  count_outcomes f (o :: log) = count_outcomes f [o] + count_outcomes f log.
Proof. unfold count_outcomes. simpl. by destruct (f o). Qed.

Lemma entries_counts (d : string) (es : list entry) (i : nat) (st : state) :
  let r := process_all d i es st in
  success_count r.1 = success_count st + count_outcomes is_success r.2
  ∧ skip_count r.1 = skip_count st + count_outcomes is_skip r.2
  ∧ fail_count r.1 = fail_count st + count_outcomes is_fail r.2
  ∧ length (requests r.1)
    = length (requests st) + count_outcomes is_success r.2
      + count_outcomes is_fail r.2.
Proof.
  revert i st. induction es as [|e es IH]; intros i st.
  - unfold count_outcomes. simpl. lia.
  - rewrite process_entries_cons. simpl.
    destruct (step_counts d i e st) as (S1 & S2 & S3 & S4).
    destruct (IH (S i) (process d i e st).1) as (T1 & T2 & T3 & T4).
    set (o := (process d i e st).2) in *.
    set (rest := (process_all d (S i) es (process d i e st).1).2) in *.
    rewrite (count_outcomes_cons is_success o rest),
      (count_outcomes_cons is_skip o rest), (count_outcomes_cons is_fail o rest).
    simpl in *. lia.
Qed.

(** What is known of a run that went through the loop *)
Lemma get_transcripts_inv (rss_url output_base now_start now_agg : string)
    (disk : gmap string string) (st : state) (log : list outcome) :
  run rss_url output_base now_start now_agg disk = Finished st log →
  ∃ feed_content t,
    http_get rss_url = HttpOk feed_content
    ∧ feed_title (feedparser_parse feed_content) = Some t
    ∧ PosixPath.join output_base (sanitize_filename t) ≠ "".
Proof.
  unfold get_transcripts. destruct (http_get rss_url) as [c|]; [|done].
  destruct (feed_title _) as [t|] eqn:Ht; [|done].
  destruct (decide _); [done|]. intros _. by exists c, t.
Qed.

Lemma run_counters
    (rss_url output_base now_start now_agg : string)
    (disk : gmap string string) (st : state) (log : list outcome) :
  run rss_url output_base now_start now_agg disk = Finished st log →
  success_count st = count_outcomes is_success log
  ∧ skip_count st = count_outcomes is_skip log
  ∧ fail_count st = count_outcomes is_fail log
  ∧ success_count st + skip_count st + fail_count st = length log.
Proof.
  intros Hrun.
  destruct (get_transcripts_inv _ _ _ _ _ _ _ Hrun) as (c & t & Hget & Ht & Hd).
  rewrite (get_transcripts_finished http_get feedparser_parse soup_get_text
             utf8_encode utf8_decode rss_url output_base now_start now_agg
             disk c t Hget Ht Hd) in Hrun.
  injection Hrun as <- <-.
  match goal with
  | |- context [process_entries _ _ _ ?d 0 ?es ?s] =>
      destruct (entries_counts d es 0 s) as (C1 & C2 & C3 & _);
      set (r := process_entries http_get soup_get_text utf8_encode d 0 es s) in *
  end.
  simpl. rewrite C1, C2, C3.
  assert (success_count (loop_start utf8_encode
            (PosixPath.join output_base (sanitize_filename t)) rss_url
            now_start disk) = 0
          ∧ skip_count (loop_start utf8_encode
            (PosixPath.join output_base (sanitize_filename t)) rss_url
            now_start disk) = 0
          ∧ fail_count (loop_start utf8_encode
            (PosixPath.join output_base (sanitize_filename t)) rss_url
            now_start disk) = 0) as (-> & -> & ->).
  { unfold loop_start. simpl. by destruct (PosixPath.exists_ _ _). }
  split_and!; try done. simpl.
  clear. unfold count_outcomes. induction (r.2) as [|o l IH]; [done|].
  destruct o; simpl in *; lia.
Qed.

(** X5: the three counters of the summary are the numbers of entries that
    ended as success, as skipped (no transcript or already there) and as
    failed; they add up to the number of entries. *)
Theorem counters_match_outcomes
    (rss_url output_base now_start now_agg : string)
    (disk : gmap string string) (st : state) (log : list outcome) :
  run rss_url output_base now_start now_agg disk = Finished st log →
  success_count st = count_outcomes is_success log
  ∧ skip_count st = count_outcomes is_skip log
  ∧ fail_count st = count_outcomes is_fail log
  ∧ success_count st + skip_count st + fail_count st = length log.
Proof. apply run_counters. Qed.

(** X6: besides the feed, a run requests one URL for each entry that ends as
    success or as failed, and none for a skipped entry. *)
Theorem requests_match_outcomes
    (rss_url output_base now_start now_agg : string)
    (disk : gmap string string) (st : state) (log : list outcome) :
  run rss_url output_base now_start now_agg disk = Finished st log →
  length (requests st) = 1 + success_count st + fail_count st.
Proof.
  intros Hrun.
  destruct (run_counters _ _ _ _ _ _ _ Hrun) as (-> & _ & -> & _).
  destruct (get_transcripts_inv _ _ _ _ _ _ _ Hrun) as (c & t & Hget & Ht & Hd).
  rewrite (get_transcripts_finished http_get feedparser_parse soup_get_text
             utf8_encode utf8_decode rss_url output_base now_start now_agg
             disk c t Hget Ht Hd) in Hrun.
  injection Hrun as <- <-.
  match goal with
  | |- context [process_entries _ _ _ ?d 0 ?es ?s] =>
      destruct (entries_counts d es 0 s) as (_ & _ & _ & C4)
  end.
  simpl. rewrite C4. unfold loop_start. simpl.
  destruct (PosixPath.exists_ _ _); simpl; lia.
Qed.

End Accounting.

(** ** The links *)

(** X11: when the extension field gives no usable URL, the URL and the type
    are those of the first link whose relation is [transcript]; the links
    behind it are not looked at, not even when that first link has no
    [href]. *)
Theorem first_transcript_link_wins (e : entry) (pre post : list link)
    (l : link) :
  Py.truthy (from_extension e).1 = false →
  links e = Some (pre ++ l :: post) →
  (∀ x, x ∈ pre → rel x ≠ Some "transcript") →
  rel l = Some "transcript" →
  resolve e = (href l, ln_type l).
Proof.
  intros Hext Hlinks Hpre Hl. unfold resolve.
  destruct (from_extension e) as [u ty]. simpl in Hext. rewrite Hext, Hlinks.
  simpl. by rewrite (find_transcript_link_first pre post l Hpre Hl).
Qed.

(** ** The path checked for an HTML transcript *)

(** X1: when the path of the output directory holds no [.html], the path
    whose existence is checked for an HTML transcript is the path its
    converted text is written to. *)
Theorem html_check_path_is_converted_text (d : string) (i : nat) (e : entry) :
  Py.contains ".html" d = false →
  check_path_of (PosixPath.join d (filename_of i e ".html")) ".html"
  = PosixPath.join d (Py.replace ".html" ".txt" (filename_of i e ".html")).
Proof.
  intros Hd. unfold check_path_of. rewrite decide_True by done.
  apply ReplaceFacts.check_path_join; [done|apply NameFacts.filename_digit].
Qed.

(** ** Aggregating again *)

Lemma txt_files_insert_aggregate (d t v : string) (m : gmap string string) :
  txt_files d
    (<[PosixPath.join d (sanitize_filename t +:+ "_All_Transcripts.txt") := v]> m)
  = txt_files d m.
Proof.
  set (agg := sanitize_filename t +:+ "_All_Transcripts.txt").
  assert (Py.contains "All_Transcripts" agg = true) as Hagg.
  { unfold agg.
    assert (sanitize_filename t +:+ "_All_Transcripts.txt"
            = (sanitize_filename t +:+ "_") +:+ "All_Transcripts" +:+ ".txt")
      as -> by by rewrite PyFacts.app_assoc.
    apply PyFacts.contains_app. }
  apply (Sorted_unique String.le).
  - apply Sorted_merge_sort; try apply _.
  - apply Sorted_merge_sort; try apply _.
  - apply NoDup_Permutation; [apply NoDup_txt_files..|].
    intros f. rewrite !elem_of_txt_files, !PathFacts.elem_of_listdir.
    split; intros [(Hs & Hne & Hsl) He]; (split; [split_and!; try done|done]).
    + rewrite lookup_insert_ne in Hs; [done|].
      rewrite <-PathFacts.join_relative
        by by apply PathFacts.contains_slash_startswith.
      intros Heq%PathFacts.join_inj;
        [|apply agg_filename_relative
         |by apply PathFacts.contains_slash_startswith].
      apply eligible_iff in He as (_ & Hc & _). fold agg in Heq. congruence.
    + by apply is_Some_insert.
Qed.

Section AggregateAgain.

Variable utf8_encode : string → string.
Variable utf8_decode : string → option string.

Local Abbreviation aggregate := (create_aggregated_file utf8_encode utf8_decode).

(** X10: the aggregate is not one of its own inputs: aggregating what an
    aggregation left gives what aggregating the original directory gives. *)
Theorem aggregate_ignores_own_output (d t now1 now2 : string)
    (m : gmap string string) :
  create_aggregated_file utf8_encode utf8_decode d t now2
    (create_aggregated_file utf8_encode utf8_decode d t now1 m)
  = create_aggregated_file utf8_encode utf8_decode d t now2 m.
Proof.
  unfold create_aggregated_file at 2.
  destruct (txt_files d m) as [|f0 fl] eqn:E; [done|].
  rewrite insert_insert_eq. unfold create_aggregated_file.
  rewrite !txt_files_insert_aggregate, E, !insert_insert_eq.
  reflexivity.
Qed.

End AggregateAgain.

(** ** What a run keeps on disk *)

Section Keeping.

Variable http_get : string → http_result.
Variable feedparser_parse : string → parsed_feed.
Variable soup_get_text : string → string.
Variable utf8_encode : string → string.
Variable utf8_decode : string → option string.

Local Abbreviation process := (process_entry http_get soup_get_text utf8_encode).
Local Abbreviation process_all :=
  (process_entries http_get soup_get_text utf8_encode).
Local Abbreviation aggregate := (create_aggregated_file utf8_encode utf8_decode).
Local Abbreviation run :=
  (get_transcripts http_get feedparser_parse soup_get_text utf8_encode
     utf8_decode).

(** X8: a run removes no file: every path that exists when it starts exists
    when it ends, however it ends. *)
Theorem run_removes_nothing (rss_url output_base now_start now_agg : string)
    (disk : gmap string string) :
  grows disk (fs (final_state (run rss_url output_base now_start now_agg disk))).
Proof.
  destruct (http_get rss_url) as [c|err] eqn:Hget;
    [|unfold get_transcripts; rewrite Hget; apply grows_refl].
  destruct (feed_title (feedparser_parse c)) as [t|] eqn:Ht;
    [|unfold get_transcripts; rewrite Hget, Ht; apply grows_refl].
  destruct (decide (PosixPath.join output_base (sanitize_filename t) = ""))
    as [Hd|Hd].
  - unfold get_transcripts. rewrite Hget, Ht, decide_True by done.
    apply grows_refl.
  - rewrite (get_transcripts_finished http_get feedparser_parse soup_get_text
               utf8_encode utf8_decode rss_url output_base now_start now_agg
               disk c t Hget Ht Hd).
    simpl. eapply grows_trans; [apply loop_start_grows|].
    eapply grows_trans; [apply entries_grow|apply aggregate_grows].
Qed.

Lemma step_appended (d p : string) (i : nat) (e : entry) (st : state)
    (m0 : gmap string string) :
  p = PosixPath.join d log_name ∨ p = PosixPath.join d csv_name →
  appended_at p m0 (fs st) →
  appended_at p m0 (fs (process d i e st).1).
Proof.
  intros Hp H0.
  assert (∀ ext, PosixPath.join d (filename_of i e ext) ≠ p) as Hfile.
  { intros ext.
    destruct (NameFacts.artifact_not_log d _ (NameFacts.filename_digit i e ext)).
    by destruct Hp as [->| ->]. }
  assert (∀ ext, PosixPath.join d
                   (Py.replace ".html" ".txt" (filename_of i e ext)) ≠ p)
    as Htxt.
  { intros ext.
    destruct (NameFacts.artifact_not_log d _
                (NameFacts.digit_first_replace _
                   (NameFacts.filename_digit i e ext))).
    by destruct Hp as [->| ->]. }
  unfold process_entry. destruct (resolve e) as [u ty].
  destruct (Py.truthy u); simpl;
    [destruct (PosixPath.exists_ _ _); simpl;
     [|destruct (http_get _); [destruct (decide _)|]; simpl]|];
    repeat first [apply appended_at_append
                 |apply appended_at_insert_ne; [done|]];
    done.
Qed.

Lemma entries_appended (d p : string) (es : list entry) (i : nat) (st : state)
    (m0 : gmap string string) :
  p = PosixPath.join d log_name ∨ p = PosixPath.join d csv_name →
  appended_at p m0 (fs st) →
  appended_at p m0 (fs (process_all d i es st).1).
Proof.
  intros Hp. revert i st. induction es as [|e es IH]; intros i st H0; [done|].
  rewrite process_entries_cons. simpl. by apply IH, step_appended.
Qed.

(** X9: the log and the CSV are only appended to: what either file held
    when the run started is the beginning of what it holds when the run
    ends, and both files exist after a run that reached the loop. *)
Theorem log_and_csv_append_only
    (rss_url output_base now_start now_agg feed_content t : string)
    (disk : gmap string string) :
  http_get rss_url = HttpOk feed_content →
  feed_title (feedparser_parse feed_content) = Some t →
  let d := PosixPath.join output_base (sanitize_filename t) in
  d ≠ "" →
  let after := fs (final_state (run rss_url output_base now_start now_agg disk)) in
  appended_at (PosixPath.join d log_name) disk after
  ∧ appended_at (PosixPath.join d csv_name) disk after
  ∧ is_Some (after !! PosixPath.join d log_name)
  ∧ is_Some (after !! PosixPath.join d csv_name).
Proof.
  intros Hget Ht d Hd after. unfold after.
  rewrite (get_transcripts_finished http_get feedparser_parse soup_get_text
             utf8_encode utf8_decode rss_url output_base now_start now_agg
             disk feed_content t Hget Ht Hd).
  fold d. simpl.
  destruct (aggregate_not_log d (sanitize_filename t)) as [Hal Hac].
  assert (∀ p, p = PosixPath.join d log_name ∨ p = PosixPath.join d csv_name →
            appended_at p disk
              (fs (loop_start utf8_encode d rss_url now_start disk))) as Hstart.
  { intros p Hp. unfold loop_start. simpl.
    destruct (PosixPath.exists_ (PosixPath.join d csv_name) disk) eqn:Hex; simpl.
    - apply appended_at_append, appended_at_refl.
    - apply appended_at_append. intros old Hold.
      destruct Hp as [->| ->].
      + rewrite lookup_insert_ne by (symmetry; apply NameFacts.log_not_csv).
        by apply appended_at_refl.
      + apply bool_decide_eq_false in Hex. destruct Hex. by eexists. }
  assert (∀ p, p = PosixPath.join d log_name ∨ p = PosixPath.join d csv_name →
            appended_at p disk
              (aggregate d (sanitize_filename t) now_agg
                 (fs (process_all d 0 (entries (feedparser_parse feed_content))
                        (loop_start utf8_encode d rss_url now_start disk)).1)))
    as Hall.
  { intros p Hp old Hold. rewrite aggregate_frame.
    - by apply (entries_appended d p _ _ _ disk Hp (Hstart p Hp)).
    - destruct Hp as [->| ->]; by apply not_eq_sym. }
  split_and!; [apply Hall; by left|apply Hall; by right|..].
  - apply aggregate_grows, entries_grow. unfold loop_start. simpl.
    unfold append_text. rewrite lookup_insert_eq. by eexists.
  - apply aggregate_grows, entries_grow. unfold loop_start. simpl.
    apply is_Some_insert.
    destruct (PosixPath.exists_ (PosixPath.join d csv_name) disk) eqn:Hex; simpl.
    + by apply bool_decide_eq_true in Hex.
    + rewrite lookup_insert_eq. by eexists.
Qed.

(** X7: a run that does not reach the loop (the feed cannot be fetched, has
    no title, or the output directory cannot be made) leaves the file system
    as it was, counts nothing and has requested the feed only. *)
Theorem unfinished_run_changes_nothing
    (rss_url output_base now_start now_agg : string)
    (disk : gmap string string) :
  (∀ st log, run rss_url output_base now_start now_agg disk ≠ Finished st log) →
  final_state (run rss_url output_base now_start now_agg disk)
  = {| fs := disk; success_count := 0; skip_count := 0; fail_count := 0;
       requests := [rss_url] |}.
Proof.
  unfold get_transcripts. destruct (http_get rss_url); [|done].
  destruct (feed_title _); [|done]. destruct (decide _); [done|].
  destruct (process_entries _ _ _ _ _ _ _) as [st log]. intros H.
  by destruct (H _ _ eq_refl).
Qed.

End Keeping.

(** ** What a successful entry stores, and where *)

Module StoreFacts.
Import PyFacts PathFacts NameFacts.

Lemma replace_from_length (s : string) (k : nat) :
  String.length (Py.replace_from ".html" ".txt" k s) ≤ String.length s - k.
Proof.
  revert k. induction s as [|c s IH]; intros k; [simpl; lia|].
  destruct k as [|k]; cbn [Py.replace_from].
  - destruct (Py.startswith ".html" (String c s)) eqn:Hm.
    + apply startswith_inv in Hm as [r Hr]. injection Hr as -> ->.
      change (String.length ".html" - 1) with 4.
      rewrite length_app. specialize (IH 4). simpl in *. lia.
    + specialize (IH 0). simpl. lia.
  - specialize (IH k). simpl. lia.
Qed.

Lemma replace_shrinks (s : string) :
  Py.contains ".html" s = true →
  String.length (Py.replace ".html" ".txt" s) < String.length s.
Proof.
  unfold Py.replace. induction s as [|c s IH]; [done|].
  cbn [Py.replace_from Py.contains].
  destruct (Py.startswith ".html" (String c s)) eqn:Hm.
  - intros _. apply startswith_inv in Hm as [r Hr]. injection Hr as -> ->.
    change (String.length ".html" - 1) with 4. rewrite length_app.
    pose proof (replace_from_length ("html" +:+ r) 4). simpl in *. lia.
  - simpl. intros H. specialize (IH H). simpl. lia.
Qed.

(** The converted text of an HTML transcript is not the file of its raw
    bytes. *)
Lemma txt_path_not_file_path (d : string) (i : nat) (e : entry) :
  PosixPath.join d (Py.replace ".html" ".txt" (filename_of i e ".html"))
  ≠ PosixPath.join d (filename_of i e ".html").
Proof.
  intros Heq%join_inj;
    [|auto using digit_first_relative, digit_first_replace, filename_digit..].
  assert (Py.contains ".html" (filename_of i e ".html") = true) as Hc.
  { unfold filename_of.
    assert (date_prefix e +:+ "_" +:+ sanitize_filename (episode_title i e)
            +:+ ".html"
            = (date_prefix e +:+ "_" +:+ sanitize_filename (episode_title i e))
              +:+ ".html" +:+ "") as -> by by rewrite !app_assoc, app_nil_r.
    apply contains_app. }
  apply replace_shrinks in Hc. rewrite Heq in Hc. lia.
Qed.

(** *** File names hold no separator *)

Lemma legal_no_slash (s : string) :
  all_chars legal s = true → Py.contains "/" s = false.
Proof.
  induction s as [|c s IH]; [done|]. simpl. intros [Hc Hs]%andb_true_iff.
  rewrite IH by done. destruct (decide ("/"%char = c)) as [<-|]; [done|].
  by destruct s.
Qed.

Lemma digit_legal (n : nat) : legal (Py.digit n) = true.
Proof.
  unfold Py.digit. pose proof (Nat.mod_upper_bound n 10 ltac:(lia)) as H.
  destruct (n `mod` 10) as [|[|[|[|[|[|[|[|[|[|k]]]]]]]]]]; try done. lia.
Qed.

Lemma str_of_nat_go_legal (fuel n : nat) (acc : string) :
  all_chars legal acc = true →
  all_chars legal (Py.str_of_nat_go fuel n acc) = true.
Proof.
  revert n acc. induction fuel as [|f IH]; intros n acc Hacc; [exact Hacc|].
  cbn [Py.str_of_nat_go].
  assert (all_chars legal (String (Py.digit n) acc) = true) as H.
  { cbn [all_chars]. rewrite digit_legal, Hacc. reflexivity. }
  destruct (n <? 10); [exact H|apply IH, H].
Qed.

Lemma zfill_legal (w : nat) (s : string) :
  all_chars legal s = true → all_chars legal (Py.zfill w s) = true.
Proof.
  intros Hs. unfold Py.zfill. rewrite all_chars_app, Hs, andb_true_r.
  induction (w - String.length s) as [|k IH]; [done|]. simpl. by rewrite IH.
Qed.

Lemma date_prefix_legal (e : entry) : all_chars legal (date_prefix e) = true.
Proof.
  unfold date_prefix. destruct (published_parsed e) as [t|]; [|done].
  unfold strftime_ymd.
  rewrite !all_chars_app, !zfill_legal by by apply str_of_nat_go_legal.
  unfold Py.str_of_nat. by rewrite str_of_nat_go_legal.
Qed.

Lemma extension_legal (ty : option string) :
  all_chars legal (extension ty) = true.
Proof. unfold extension. by repeat destruct (decide _). Qed.

Lemma filename_legal (i : nat) (e : entry) (ty : option string) :
  all_chars legal (filename_of i e (extension ty)) = true.
Proof.
  unfold filename_of.
  rewrite !all_chars_app, date_prefix_legal, extension_legal.
  unfold legal at 2. by rewrite sanitize_legal.
Qed.

Lemma replace_from_legal (s : string) (k : nat) :
  all_chars legal s = true →
  all_chars legal (Py.replace_from ".html" ".txt" k s) = true.
Proof.
  revert k. induction s as [|c s IH]; intros k; [done|].
  cbn [all_chars]. intros [Hc Hs]%andb_true_iff.
  destruct k as [|k]; cbn [Py.replace_from]; [|by apply IH].
  destruct (Py.startswith ".html" (String c s)).
  - rewrite all_chars_app, IH by done. reflexivity.
  - cbn [all_chars]. by rewrite Hc, IH.
Qed.

End StoreFacts.

Section Storing.

Variable http_get : string → http_result.
Variable soup_get_text : string → string.
Variable utf8_encode : string → string.

Local Abbreviation process := (process_entry http_get soup_get_text utf8_encode).

Lemma success_stored (d : string) (i : nat) (e : entry)
    (st : state) (p : string) :
  (process d i e st).2 = Success p →
  ∃ url ty content,
    resolve e = (Some url, ty)
    ∧ url ≠ ""
    ∧ http_get url = HttpOk content
    ∧ requests (process d i e st).1 = url :: requests st
    ∧ fs (process d i e st).1
      !! PosixPath.join d (filename_of i e (extension ty)) = Some content
    ∧ (extension ty = ".html" →
       p = PosixPath.join d
             (Py.replace ".html" ".txt" (filename_of i e (extension ty)))
       ∧ fs (process d i e st).1 !! p
         = Some (utf8_encode (html_to_text soup_get_text content)))
    ∧ (extension ty ≠ ".html" →
       p = PosixPath.join d (filename_of i e (extension ty))).
Proof.
  unfold process_entry. destruct (resolve e) as [u ty].
  destruct (Py.truthy u) eqn:Hu; simpl; [|done].
  apply truthy_Some in Hu as (url & -> & Hurl). simpl.
  destruct (PosixPath.exists_ _ _); simpl; [done|].
  destruct (http_get url) as [content|err] eqn:Hget; simpl; [|done].
  pose proof (NameFacts.artifact_not_log d _
                (NameFacts.filename_digit i e (extension ty))) as [Hfl _].
  pose proof (NameFacts.artifact_not_log d _
                (NameFacts.digit_first_replace _
                   (NameFacts.filename_digit i e (extension ty)))) as [Htl _].
  destruct (decide (extension ty = ".html")) as [Hext|Hext]; simpl;
    intros [= <-]; exists url, ty, content; split_and!; try done.
  - rewrite append_text_lookup_ne by by apply not_eq_sym.
    rewrite lookup_insert_ne, lookup_insert_eq; [done|].
    rewrite Hext. apply StoreFacts.txt_path_not_file_path.
  - intros _. split; [done|].
    rewrite append_text_lookup_ne by by apply not_eq_sym.
    by rewrite lookup_insert_eq.
  - rewrite append_text_lookup_ne by by apply not_eq_sym.
    by rewrite insert_insert_eq, lookup_insert_eq.
Qed.

(** X12: an entry that ends as success was requested once, with success; the
    bytes of the response are in the file named after the entry; for an HTML
    transcript the path of the outcome is the [.txt] sibling, which holds
    the flattened text, and for every other type it is that file. *)
Theorem success_stores_transcript (d : string) (i : nat) (e : entry)
    (st : state) (p : string) :
  (process d i e st).2 = Success p →
  ∃ url ty content,
    resolve e = (Some url, ty)
    ∧ url ≠ ""
    ∧ http_get url = HttpOk content
    ∧ requests (process d i e st).1 = url :: requests st
    ∧ fs (process d i e st).1
      !! PosixPath.join d (filename_of i e (extension ty)) = Some content
    ∧ (extension ty = ".html" →
       p = PosixPath.join d
             (Py.replace ".html" ".txt" (filename_of i e (extension ty)))
       ∧ fs (process d i e st).1 !! p
         = Some (utf8_encode (html_to_text soup_get_text content)))
    ∧ (extension ty ≠ ".html" →
       p = PosixPath.join d (filename_of i e (extension ty))).
Proof. apply success_stored. Qed.

(** X4: the file of a successful entry lies in the output directory itself:
    its name holds no separator, whatever the title of the episode, and
    [os.listdir] reports it. *)
Theorem success_path_in_output_dir (d : string) (i : nat) (e : entry)
    (st : state) (p : string) :
  (process d i e st).2 = Success p →
  ∃ name,
    p = PosixPath.dir_prefix d +:+ name
    ∧ Py.contains "/" name = false
    ∧ name ∈ PosixPath.listdir d (fs (process d i e st).1).
Proof.
  intros Hp.
  destruct (success_stored d i e st p Hp)
    as (url & ty & content & _ & _ & _ & _ & Hraw & Hhtml & Hother).
  pose proof (NameFacts.filename_digit i e (extension ty)) as Hdig.
  pose proof (StoreFacts.filename_legal i e ty) as Hleg.
  assert (∀ name, digit_first name → all_chars legal name = true →
            p = PosixPath.join d name →
            is_Some (fs (process d i e st).1 !! p) →
            ∃ name,
              p = PosixPath.dir_prefix d +:+ name
              ∧ Py.contains "/" name = false
              ∧ name ∈ PosixPath.listdir d (fs (process d i e st).1)) as Hin.
  { intros name Hd Hl -> Hs. exists name.
    pose proof (StoreFacts.legal_no_slash name Hl) as Hsl.
    rewrite PathFacts.join_relative in *
      by by apply NameFacts.digit_first_relative.
    split_and!; try done. apply PathFacts.elem_of_listdir.
    split_and!; try done. destruct Hd as (c & r & -> & _). done. }
  destruct (decide (extension ty = ".html")) as [Hext|Hext].
  - destruct (Hhtml Hext) as [Heq Hs].
    apply (Hin _ (NameFacts.digit_first_replace _ Hdig)); [|done|by eexists].
    by apply StoreFacts.replace_from_legal.
  - apply (Hin _ Hdig Hleg (Hother Hext)). rewrite (Hother Hext). by eexists.
Qed.

End Storing.

(** ** The further properties on the example feed *)

Lemma html_check_path_is_converted_text_witness :
  check_path_of (PosixPath.join "downloads/Pod" (filename_of 0 entry_html ".html"))
    ".html"
  = PosixPath.join "downloads/Pod"
      (Py.replace ".html" ".txt" (filename_of 0 entry_html ".html")).
Proof.
  apply html_check_path_is_converted_text. vm_compute. reflexivity.
Defined.

Lemma rerun_skips_successes_witness :
  ∃ st1 log1 st2 log2,
    example_run "Pod" "2024-05-01 10:00:00" "2024-05-01 10:00:09" ∅
    = Finished st1 log1
    ∧ example_run "Pod" "2024-05-02 10:00:00" "2024-05-02 10:00:09" (fs st1)
      = Finished st2 log2
    ∧ length log2 = length log1
    ∧ success_count st2 = 0.
Proof.
  destruct (rerun_skips_successes example_http (example_feed "Pod")
              example_get_text example_encode example_decode
              "https://example.org/feed.xml" "downloads"
              "2024-05-01 10:00:00" "2024-05-01 10:00:09"
              "2024-05-02 10:00:00" "2024-05-02 10:00:09" "<rss/>" "Pod" ∅
              eq_refl eq_refl)
    as (st1 & log1 & st2 & log2 & R1 & R2 & _ & L2 & _ & _ & H0 & _).
  - vm_compute. discriminate.
  - vm_compute. reflexivity.
  - exists st1, log1, st2, log2. split_and!; assumption.
Defined.

Lemma success_path_in_output_dir_witness :
  ∃ name,
    "downloads/Pod/2023-01-05_Ep 1 AB.txt"
    = PosixPath.dir_prefix "downloads/Pod" +:+ name
    ∧ Py.contains "/" name = false
    ∧ name ∈ PosixPath.listdir "downloads/Pod"
               (fs (process_entry example_http example_get_text example_encode
                      "downloads/Pod" 0 entry_html (empty_state ∅)).1).
Proof.
  apply (success_path_in_output_dir example_http example_get_text
           example_encode "downloads/Pod" 0 entry_html (empty_state ∅)).
  vm_compute. reflexivity.
Defined.

Lemma counters_match_outcomes_witness :
  let st := final_state (first_run "Pod") in
  let log := branches (first_run "Pod") in
  success_count st = count_outcomes is_success log
  ∧ skip_count st = count_outcomes is_skip log
  ∧ fail_count st = count_outcomes is_fail log
  ∧ success_count st + skip_count st + fail_count st = length log.
Proof.
  apply (counters_match_outcomes example_http (example_feed "Pod")
           example_get_text example_encode example_decode
           "https://example.org/feed.xml" "downloads"
           "2024-05-01 10:00:00" "2024-05-01 10:00:09" ∅).
  vm_compute. reflexivity.
Defined.

Lemma requests_match_outcomes_witness :
  let st := final_state (first_run "Pod") in
  length (requests st) = 1 + success_count st + fail_count st.
Proof.
  apply (requests_match_outcomes example_http (example_feed "Pod")
           example_get_text example_encode example_decode
           "https://example.org/feed.xml" "downloads"
           "2024-05-01 10:00:00" "2024-05-01 10:00:09" ∅
           (final_state (first_run "Pod")) (branches (first_run "Pod"))).
  vm_compute. reflexivity.
Defined.

Lemma unfinished_run_changes_nothing_witness :
  final_state
    (get_transcripts example_http (example_feed "Pod") example_get_text
       example_encode example_decode "https://example.org/gone.xml"
       "downloads" "2024-05-01 10:00:00" "2024-05-01 10:00:09" example_dir)
  = {| fs := example_dir; success_count := 0; skip_count := 0;
       fail_count := 0; requests := ["https://example.org/gone.xml"] |}.
Proof.
  apply unfinished_run_changes_nothing. intros st log H.
  unfold get_transcripts in H. simpl in H. discriminate H.
Defined.

Lemma run_removes_nothing_witness :
  is_Some
    (fs (final_state
           (example_run "Pod" "2024-05-01 10:00:00" "2024-05-01 10:00:09"
              example_dir))
     !! "downloads/Pod/2023-01-15_Two.html").
Proof.
  refine (run_removes_nothing example_http (example_feed "Pod")
            example_get_text example_encode example_decode
            "https://example.org/feed.xml" "downloads"
            "2024-05-01 10:00:00" "2024-05-01 10:00:09" example_dir
            "downloads/Pod/2023-01-15_Two.html" _).
  exists "<p>second</p>". vm_compute. reflexivity.
Defined.

Lemma log_and_csv_append_only_witness :
  ∃ suffix,
    fs (final_state
          (example_run "Pod" "2024-05-01 10:00:00" "2024-05-01 10:00:09"
             example_dir))
    !! "downloads/Pod/download_log.txt"
    = Some ("--- Run started ---" +:+ suffix).
Proof.
  destruct (log_and_csv_append_only example_http (example_feed "Pod")
              example_get_text example_encode example_decode
              "https://example.org/feed.xml" "downloads"
              "2024-05-01 10:00:00" "2024-05-01 10:00:09" "<rss/>" "Pod"
              example_dir eq_refl eq_refl) as (Hlog & _).
  - vm_compute. discriminate.
  - apply Hlog. vm_compute. reflexivity.
Defined.

Lemma first_transcript_link_wins_witness :
  resolve entry_vtt = (Some "https://example.org/ep2.vtt", Some "text/vtt").
Proof.
  apply (first_transcript_link_wins entry_vtt
           [ {| rel := Some "alternate"; href := Some "https://example.org/two";
                ln_type := None |} ]
           []
           {| rel := Some "transcript";
              href := Some "https://example.org/ep2.vtt";
              ln_type := Some "text/vtt" |}).
  - reflexivity.
  - reflexivity.
  - intros x Hx. apply list_elem_of_singleton in Hx. subst x. discriminate.
  - reflexivity.
Defined.

Lemma success_stores_transcript_witness :
  ∃ url ty content,
    resolve entry_html = (Some url, ty)
    ∧ example_http url = HttpOk content
    ∧ fs (process_entry example_http example_get_text example_encode
            "downloads/Pod" 0 entry_html (empty_state ∅)).1
      !! PosixPath.join "downloads/Pod" (filename_of 0 entry_html (extension ty))
      = Some content.
Proof.
  destruct (success_stores_transcript example_http example_get_text
              example_encode "downloads/Pod" 0 entry_html (empty_state ∅)
              "downloads/Pod/2023-01-05_Ep 1 AB.txt")
    as (url & ty & content & Hres & _ & Hget & _ & Hraw & _).
  - vm_compute. reflexivity.
  - exists url, ty, content. split_and!; assumption.
Defined.
